(** * Listing filter, query codec and CRUD of the RealEstate Hub modules

    Shallow embedding of
    - [frontend/src/lib/storage.ts]: the localStorage CRUD and the local
      [filterProperties];
    - [frontend/src/lib/api.ts]: the query-parameter encoder of
      [getAllProperties];
    - the backend controller [getAllProperties] (query decode) and the
      repository [propertyRepository] with [buildWhereClause];
    - the controller handlers by id, the client functions of [api.ts] that
      call them, and the filter state of the [HomePage] pages. *)

From Stdlib Require Import ZArith String Ascii List Bool Lia.
From Stdlib Require Import Permutation Sorted Btauto.
From Stdlib Require Import DecimalString DecimalN.
Import ListNotations.

Open Scope string_scope.
Open Scope Z_scope.

(* ------------------------------------------------------------------ *)
(** ** JavaScript strings *)

(** [String.prototype.toLowerCase], on the ASCII range. *)
Definition lower_char (c : ascii) : ascii :=
  let n := nat_of_ascii c in
  if (65 <=? n)%nat && (n <=? 90)%nat then ascii_of_nat (n + 32) else c.

Fixpoint toLowerCase (s : string) : string :=
  match s with
  | EmptyString => EmptyString
  | String c r => String (lower_char c) (toLowerCase r)
  end.

Fixpoint starts_with (s pre : string) : bool :=
  match pre, s with
  | EmptyString, _ => true
  | String a p, String b r => Ascii.eqb a b && starts_with r p
  | String _ _, EmptyString => false
  end.

(** [s.includes(sub)]. *)
Fixpoint includes (s sub : string) : bool :=
  starts_with s sub ||
  match s with
  | EmptyString => false
  | String _ r => includes r sub
  end.

(** Truthiness of an optional string field: [undefined] and [""] are falsy. *)
Definition truthy (o : option string) : bool :=
  match o with
  | Some s => negb (String.eqb s "")
  | None => false
  end.

(* ------------------------------------------------------------------ *)
(** ** JavaScript numbers *)

(** A JS number as the filters carry it: a finite (integral) value or
    [NaN], which [Number()] yields on a non-numeric string. *)
Inductive num := Fin (z : Z) | NaN.

(** [x > 0]; every comparison with [NaN] is false. *)
Definition num_pos (x : num) : bool :=
  match x with Fin z => 0 <? z | NaN => false end.

(** [v >= x] and [v <= x] for a finite [v]. *)
Definition ge_num (v : Z) (x : num) : bool :=
  match x with Fin z => z <=? v | NaN => false end.
Definition le_num (v : Z) (x : num) : bool :=
  match x with Fin z => v <=? z | NaN => false end.

(** Whitespace stripped by [Number()] (ASCII part of StrWhiteSpaceChar). *)
Definition is_ws (c : ascii) : bool :=
  let n := nat_of_ascii c in
  (n =? 32)%nat || (n =? 9)%nat || (n =? 10)%nat || (n =? 11)%nat
  || (n =? 12)%nat || (n =? 13)%nat.

Fixpoint trim_start (s : string) : string :=
  match s with
  | String c r => if is_ws c then trim_start r else s
  | EmptyString => EmptyString
  end.

Fixpoint trim_end (s : string) : string :=
  match s with
  | EmptyString => EmptyString
  | String c r =>
      let r' := trim_end r in
      if String.eqb r' "" && is_ws c then EmptyString else String c r'
  end.

Definition trim (s : string) : string := trim_end (trim_start s).

Definition digits_value (s : string) : option Z :=
  if String.eqb s "" then None
  else option_map (fun u => Z.of_N (N.of_uint u)) (NilEmpty.uint_of_string s).

(** [Number(s)]: surrounding whitespace is ignored, the empty string is [0],
    a signed decimal integer literal is its value, any other string is
    [NaN]. (Decimal fractions, exponents, hexadecimal and [Infinity]
    literals are outside this model.) *)
Definition Number (s : string) : num :=
  let t := trim s in
  match t with
  | EmptyString => Fin 0
  | String c r =>
      if Ascii.eqb c "-" then
        match digits_value r with Some z => Fin (- z) | None => NaN end
      else if Ascii.eqb c "+" then
        match digits_value r with Some z => Fin z | None => NaN end
      else match digits_value t with Some z => Fin z | None => NaN end
  end.

(** [String(x)] for a number. *)
Definition num_String (x : num) : string :=
  match x with
  | Fin z =>
      if z <? 0 then String "-" (NilEmpty.string_of_uint (N.to_uint (Z.to_N (- z))))
      else NilEmpty.string_of_uint (N.to_uint (Z.to_N z))
  | NaN => "NaN"
  end.

Example Number_ex1 : Number " 42 " = Fin 42. Proof. reflexivity. Qed.
Example Number_ex2 : Number "abc" = NaN. Proof. reflexivity. Qed.
Example Number_ex3 : Number "-7" = Fin (-7). Proof. reflexivity. Qed.
Example num_String_ex : num_String (Fin (-120)) = "-120". Proof. reflexivity. Qed.

(* ------------------------------------------------------------------ *)
(** ** Data model ([types/property.ts]) *)

Definition PROPERTY_TYPES : list string :=
  ["casa"; "apartamento"; "terreno"; "local"; "oficina"].
Definition OPERATION_TYPES : list string := ["venta"; "alquiler"].

(** [Property]. The ISO 8601 timestamps are represented by the time value
    [new Date(s).getTime()] they denote (milliseconds). *)
Record Property := mkProperty {
  id : string;
  title : string;
  description : string;
  propertyType : string;
  operationType : string;
  price : Z;
  address : string;
  city : string;
  bedrooms : Z;
  bathrooms : Z;
  area : Z;
  amenities : list string;
  images : list string;
  createdAt : Z;
  updatedAt : Z
}.

(** [CreatePropertyInput]. *)
Record CreatePropertyInput := mkInput {
  in_title : string;
  in_description : string;
  in_propertyType : string;
  in_operationType : string;
  in_price : Z;
  in_address : string;
  in_city : string;
  in_bedrooms : Z;
  in_bathrooms : Z;
  in_area : Z;
  in_amenities : list string;
  in_images : list string
}.

(** [Partial<CreatePropertyInput>]: [None] is an absent key. *)
Record PartialInput := mkPartial {
  pi_title : option string;
  pi_description : option string;
  pi_propertyType : option string;
  pi_operationType : option string;
  pi_price : option Z;
  pi_address : option string;
  pi_city : option string;
  pi_bedrooms : option Z;
  pi_bathrooms : option Z;
  pi_area : option Z;
  pi_amenities : option (list string);
  pi_images : option (list string)
}.

(** [PropertyFilters]; the enum fields hold a [PropertyType | ''] string. *)
Module PropertyFilters.
Record t := mk {
  search : option string;
  propertyType : option string;
  operationType : option string;
  minPrice : option num;
  maxPrice : option num;
  minBedrooms : option num;
  city : option string
}.
Definition empty : t := mk None None None None None None None.
End PropertyFilters.

Definition or_empty (o : option string) : string :=
  match o with Some s => s | None => "" end.

(* ------------------------------------------------------------------ *)
(** ** Ordering: [sort((a, b) => time(b.createdAt) - time(a.createdAt))]

    [Array.prototype.sort] is stable; the stable sort by descending
    [createdAt] is computed here by insertion. *)

Fixpoint insert_desc (x : Property) (l : list Property) : list Property :=
  match l with
  | [] => [x]
  | y :: ys => if createdAt y <=? createdAt x then x :: l else y :: insert_desc x ys
  end.

Fixpoint sort_desc (l : list Property) : list Property :=
  match l with
  | [] => []
  | x :: r => insert_desc x (sort_desc r)
  end.

Definition newest_first (a b : Property) : Prop := createdAt b <= createdAt a.

(* ------------------------------------------------------------------ *)
(** ** localStorage (key [real_estate_properties]) *)

(** The item under [STORAGE_KEY]: absent, a value [JSON.parse] rejects or
    that is not an array, or a stored array of properties. *)
Inductive StorageItem :=
  | Missing
  | Corrupt
  | Saved (l : list Property).

(** [getAllProperties]. *)
Definition getAllProperties (st : StorageItem) : list Property :=
  match st with
  | Missing => []
  | Corrupt => []
  | Saved l => l
  end.

(** Outcome of a storage-writing operation: a return value with the new
    item, or the [Error] thrown by [saveProperties]. *)
Inductive Res (A : Type) :=
  | Ret (a : A) (st : StorageItem)
  | Throw (st : StorageItem).
Arguments Ret {A}.
Arguments Throw {A}.

(* ------------------------------------------------------------------ *)
(** ** Local predicate filter: [filterProperties] *)

Definition search_hit (searchLower : string) (p : Property) : bool :=
  includes (toLowerCase (title p)) searchLower
  || includes (toLowerCase (description p)) searchLower
  || includes (toLowerCase (address p)) searchLower
  || includes (toLowerCase (city p)) searchLower.

Definition gated (o : option num) : option num :=
  match o with Some x => if num_pos x then Some x else None | None => None end.

(** [filterProperties]: one [filter] pass per populated field, in the
    source order, then the sort. It reads the storage and writes nothing:
    the item is returned as it was. *)
Definition filterProperties (filters : PropertyFilters.t) (st : StorageItem)
  : list Property * StorageItem :=
  let properties := getAllProperties st in
  let properties :=
    if truthy (PropertyFilters.search filters) then
      let searchLower := toLowerCase (or_empty (PropertyFilters.search filters)) in
      filter (search_hit searchLower) properties
    else properties in
  let properties :=
    if truthy (PropertyFilters.propertyType filters) then
      filter (fun p => String.eqb (propertyType p)
                         (or_empty (PropertyFilters.propertyType filters))) properties
    else properties in
  let properties :=
    if truthy (PropertyFilters.operationType filters) then
      filter (fun p => String.eqb (operationType p)
                         (or_empty (PropertyFilters.operationType filters))) properties
    else properties in
  let properties :=
    match gated (PropertyFilters.minPrice filters) with
    | Some m => filter (fun p => ge_num (price p) m) properties
    | None => properties
    end in
  let properties :=
    match gated (PropertyFilters.maxPrice filters) with
    | Some m => filter (fun p => le_num (price p) m) properties
    | None => properties
    end in
  let properties :=
    match gated (PropertyFilters.minBedrooms filters) with
    | Some m => filter (fun p => ge_num (bedrooms p) m) properties
    | None => properties
    end in
  let properties :=
    if truthy (PropertyFilters.city filters) then
      filter (fun p => includes (toLowerCase (city p))
                         (toLowerCase (or_empty (PropertyFilters.city filters)))) properties
    else properties in
  (sort_desc properties, st).

(** The per-field tests of [filterProperties], one per pass. *)
Definition search_ok (f : PropertyFilters.t) (p : Property) : bool :=
  if truthy (PropertyFilters.search f)
  then search_hit (toLowerCase (or_empty (PropertyFilters.search f))) p else true.
Definition propertyType_ok (f : PropertyFilters.t) (p : Property) : bool :=
  if truthy (PropertyFilters.propertyType f)
  then String.eqb (propertyType p) (or_empty (PropertyFilters.propertyType f)) else true.
Definition operationType_ok (f : PropertyFilters.t) (p : Property) : bool :=
  if truthy (PropertyFilters.operationType f)
  then String.eqb (operationType p) (or_empty (PropertyFilters.operationType f)) else true.
Definition minPrice_ok (f : PropertyFilters.t) (p : Property) : bool :=
  match gated (PropertyFilters.minPrice f) with Some m => ge_num (price p) m | None => true end.
Definition maxPrice_ok (f : PropertyFilters.t) (p : Property) : bool :=
  match gated (PropertyFilters.maxPrice f) with Some m => le_num (price p) m | None => true end.
Definition minBedrooms_ok (f : PropertyFilters.t) (p : Property) : bool :=
  match gated (PropertyFilters.minBedrooms f) with Some m => ge_num (bedrooms p) m | None => true end.
Definition city_ok (f : PropertyFilters.t) (p : Property) : bool :=
  if truthy (PropertyFilters.city f)
  then includes (toLowerCase (city p)) (toLowerCase (or_empty (PropertyFilters.city f)))
  else true.

Definition local_match (f : PropertyFilters.t) (p : Property) : bool :=
  search_ok f p && propertyType_ok f p && operationType_ok f p
  && minPrice_ok f p && maxPrice_ok f p && minBedrooms_ok f p && city_ok f p.

(** Filters with one field replaced, as [{ ...filters, field: v }]. *)
Definition with_search (f : PropertyFilters.t) (v : option string) : PropertyFilters.t :=
  PropertyFilters.mk v (PropertyFilters.propertyType f) (PropertyFilters.operationType f)
    (PropertyFilters.minPrice f) (PropertyFilters.maxPrice f)
    (PropertyFilters.minBedrooms f) (PropertyFilters.city f).
Definition with_propertyType (f : PropertyFilters.t) (v : option string) : PropertyFilters.t :=
  PropertyFilters.mk (PropertyFilters.search f) v (PropertyFilters.operationType f)
    (PropertyFilters.minPrice f) (PropertyFilters.maxPrice f)
    (PropertyFilters.minBedrooms f) (PropertyFilters.city f).
Definition with_operationType (f : PropertyFilters.t) (v : option string) : PropertyFilters.t :=
  PropertyFilters.mk (PropertyFilters.search f) (PropertyFilters.propertyType f) v
    (PropertyFilters.minPrice f) (PropertyFilters.maxPrice f)
    (PropertyFilters.minBedrooms f) (PropertyFilters.city f).
Definition with_prices (f : PropertyFilters.t) (lo hi : option num) : PropertyFilters.t :=
  PropertyFilters.mk (PropertyFilters.search f) (PropertyFilters.propertyType f)
    (PropertyFilters.operationType f) lo hi
    (PropertyFilters.minBedrooms f) (PropertyFilters.city f).

(* ------------------------------------------------------------------ *)
(** ** Remote query builder: [buildWhereClause] and [findAll] *)

(** One branch of [where.OR]: [{ field: { contains: s } }]. *)
Inductive TextCond :=
  | TitleContains (s : string)
  | DescriptionContains (s : string)
  | AddressContains (s : string)
  | CityContains (s : string).

(** The Prisma [where] object; [None] is a key that was never set. *)
Module Where.
Record t := mk {
  propertyType : option string;
  operationType : option string;
  price : option (option num * option num);   (* { gte?, lte? } *)
  bedrooms : option num;                       (* { gte } *)
  city : option string;                        (* { contains } *)
  OR : option (list TextCond)
}.
Definition empty : t := mk None None None None None None.
End Where.

(** [buildWhereClause]. *)
Definition buildWhereClause (filters : option PropertyFilters.t) : Where.t :=
  match filters with
  | None => Where.empty
  | Some f =>
      Where.mk
        (if truthy (PropertyFilters.propertyType f)
         then PropertyFilters.propertyType f else None)
        (if truthy (PropertyFilters.operationType f)
         then PropertyFilters.operationType f else None)
        (match PropertyFilters.minPrice f, PropertyFilters.maxPrice f with
         | None, None => None
         | lo, hi => Some (lo, hi)
         end)
        (PropertyFilters.minBedrooms f)
        (if truthy (PropertyFilters.city f) then PropertyFilters.city f else None)
        (if truthy (PropertyFilters.search f) then
           let s := or_empty (PropertyFilters.search f) in
           Some [TitleContains s; DescriptionContains s; AddressContains s; CityContains s]
         else None)
  end.

(** The storage engine's side, which is not code of this repository:
    [contains] is SQLite's [LIKE '%s%'] (case-insensitive on ASCII); a
    comparison with a [NaN] bound holds for no row. *)
Definition db_contains (v s : string) : bool := includes (toLowerCase v) (toLowerCase s).

Definition eval_text (p : Property) (c : TextCond) : bool :=
  match c with
  | TitleContains s => db_contains (title p) s
  | DescriptionContains s => db_contains (description p) s
  | AddressContains s => db_contains (address p) s
  | CityContains s => db_contains (city p) s
  end.

Definition opt_test {A} (o : option A) (t : A -> bool) : bool :=
  match o with Some a => t a | None => true end.

Definition eval_where (w : Where.t) (p : Property) : bool :=
  opt_test (Where.propertyType w) (fun v => String.eqb (propertyType p) v)
  && opt_test (Where.operationType w) (fun v => String.eqb (operationType p) v)
  && opt_test (Where.price w)
       (fun b => opt_test (fst b) (ge_num (price p)) && opt_test (snd b) (le_num (price p)))
  && opt_test (Where.bedrooms w) (ge_num (bedrooms p))
  && opt_test (Where.city w) (db_contains (city p))
  && opt_test (Where.OR w) (fun cs => existsb (eval_text p) cs).

(** [propertyRepository.findAll]: [findMany({ where, orderBy: { createdAt:
    'desc' } })] over the table, then [toProperty] (the JSON-text columns
    decode back to the arrays, so a row is kept as the [Property] it
    stores). *)
Definition findAll (filters : option PropertyFilters.t) (db : list Property) : list Property :=
  sort_desc (filter (eval_where (buildWhereClause filters)) db).

(** [propertyRepository.delete]: [findUnique] on the primary key [id], then
    [delete] of that row. *)
Definition repo_delete (i : string) (db : list Property) : bool * list Property :=
  match find (fun p => String.eqb (id p) i) db with
  | None => (false, db)
  | Some _ => (true, filter (fun p => negb (String.eqb (id p) i)) db)
  end.

(* ------------------------------------------------------------------ *)
(** ** Query parameter codec *)

(** The parameter bag: the [(key, value)] pairs of [URLSearchParams] as the
    server's query parser delivers them (URL percent-encoding and decoding
    of the values cancel out). [req.query.k] is the value under [k]. *)
Definition ParamBag := list (string * string).

Fixpoint query (k : string) (q : ParamBag) : option string :=
  match q with
  | [] => None
  | (k', v) :: r => if String.eqb k k' then Some v else query k r
  end.

Definition append_if (b : bool) (k v : string) (q : ParamBag) : ParamBag :=
  if b then (q ++ [(k, v)])%list else q.

Definition num_param (k : string) (o : option num) (q : ParamBag) : ParamBag :=
  match o with Some x => (q ++ [(k, num_String x)])%list | None => q end.

(** The encoder of the frontend [getAllProperties(filters?)] in [api.ts]. *)
Definition encode (filters : option PropertyFilters.t) : ParamBag :=
  match filters with
  | None => []
  | Some f =>
      let params := [] in
      let params := append_if (truthy (PropertyFilters.search f)) "search"
                      (or_empty (PropertyFilters.search f)) params in
      let params := append_if (truthy (PropertyFilters.propertyType f)) "propertyType"
                      (or_empty (PropertyFilters.propertyType f)) params in
      let params := append_if (truthy (PropertyFilters.operationType f)) "operationType"
                      (or_empty (PropertyFilters.operationType f)) params in
      let params := num_param "minPrice" (PropertyFilters.minPrice f) params in
      let params := num_param "maxPrice" (PropertyFilters.maxPrice f) params in
      let params := num_param "minBedrooms" (PropertyFilters.minBedrooms f) params in
      append_if (truthy (PropertyFilters.city f)) "city"
        (or_empty (PropertyFilters.city f)) params
  end.

(** The keys [encode] may emit: the fields of [PropertyFilters]. *)
Definition filter_keys : list string :=
  ["search"; "propertyType"; "operationType"; "minPrice"; "maxPrice"; "minBedrooms"; "city"].

(** [req.query.k ? Number(req.query.k) : undefined]. *)
Definition num_query (k : string) (q : ParamBag) : option num :=
  if truthy (query k q) then Some (Number (or_empty (query k q))) else None.

(** The decode step of the backend controller [getAllProperties]. *)
Definition decode (q : ParamBag) : PropertyFilters.t :=
  PropertyFilters.mk
    (query "search" q)
    (query "propertyType" q)
    (query "operationType" q)
    (num_query "minPrice" q)
    (num_query "maxPrice" q)
    (num_query "minBedrooms" q)
    (query "city" q).

(** [GET /api/properties]: decode, then [propertyRepository.findAll]. *)
Definition getAllProperties_ctrl (q : ParamBag) (db : list Property) : list Property :=
  findAll (Some (decode q)) db.

(* ------------------------------------------------------------------ *)
(** ** localStorage CRUD of [storage.ts] *)

Fixpoint findIndex {A} (f : A -> bool) (l : list A) : option nat :=
  match l with
  | [] => None
  | x :: r => if f x then Some O else option_map S (findIndex f r)
  end.

(** [properties[index] = v] for an index inside the array. *)
Fixpoint set_nth {A} (n : nat) (v : A) (l : list A) : list A :=
  match n, l with
  | _, [] => []
  | O, _ :: r => v :: r
  | S n', x :: r => x :: set_nth n' v r
  end.

Definition opt_or {A} (o : option A) (d : A) : A :=
  match o with Some a => a | None => d end.

(** [{ ...existingProperty, ...input, updatedAt }]. *)
Definition merge (existing : Property) (input : PartialInput) (updated : Z) : Property :=
  mkProperty (id existing)
    (opt_or (pi_title input) (title existing))
    (opt_or (pi_description input) (description existing))
    (opt_or (pi_propertyType input) (propertyType existing))
    (opt_or (pi_operationType input) (operationType existing))
    (opt_or (pi_price input) (price existing))
    (opt_or (pi_address input) (address existing))
    (opt_or (pi_city input) (city existing))
    (opt_or (pi_bedrooms input) (bedrooms existing))
    (opt_or (pi_bathrooms input) (bathrooms existing))
    (opt_or (pi_area input) (area existing))
    (opt_or (pi_amenities input) (amenities existing))
    (opt_or (pi_images input) (images existing))
    (createdAt existing)
    updated.

Definition state_of {A} (r : Res A) : StorageItem :=
  match r with Ret _ s => s | Throw s => s end.

Section Crud.

(** Whether [localStorage.setItem] accepts the serialised array (it throws
    when the quota is exceeded or the storage is disabled). *)
Variable setItem_ok : list Property -> bool.

(** [saveProperties]. *)
Definition saveProperties (properties : list Property) (st : StorageItem) : Res unit :=
  if setItem_ok properties then Ret tt (Saved properties) else Throw st.

(** [createProperty]: [newId] is the value of [generateId()], [t1] and [t2]
    are the two readings of [new Date()] for [createdAt] and [updatedAt]. *)
Definition createProperty (input : CreatePropertyInput) (newId : string) (t1 t2 : Z)
  (st : StorageItem) : Res Property :=
  let properties := getAllProperties st in
  let newProperty :=
    mkProperty newId (in_title input) (in_description input) (in_propertyType input)
      (in_operationType input) (in_price input) (in_address input) (in_city input)
      (in_bedrooms input) (in_bathrooms input) (in_area input) (in_amenities input)
      (in_images input) t1 t2 in
  match saveProperties (properties ++ [newProperty]) st with
  | Ret _ st' => Ret newProperty st'
  | Throw st' => Throw st'
  end.

(** [updateProperty]: [t] is the reading of [new Date()]. *)
Definition updateProperty (i : string) (input : PartialInput) (t : Z) (st : StorageItem)
  : Res (option Property) :=
  let properties := getAllProperties st in
  match findIndex (fun p => String.eqb (id p) i) properties with
  | None => Ret None st
  | Some index =>
      match nth_error properties index with
      | None => Ret None st
      | Some existingProperty =>
          let updatedProperty := merge existingProperty input t in
          match saveProperties (set_nth index updatedProperty properties) st with
          | Ret _ st' => Ret (Some updatedProperty) st'
          | Throw st' => Throw st'
          end
      end
  end.

(** [deleteProperty]. *)
Definition deleteProperty (i : string) (st : StorageItem) : Res bool :=
  let properties := getAllProperties st in
  let filtered := filter (fun p => negb (String.eqb (id p) i)) properties in
  if (length filtered =? length properties)%nat then Ret false st
  else match saveProperties filtered st with
       | Ret _ st' => Ret true st'
       | Throw st' => Throw st'
       end.

(** A write operation together with the clock readings and the generated
    identifier it consumes. *)
Inductive Op :=
  | OpCreate (input : CreatePropertyInput) (newId : string) (t1 t2 : Z)
  | OpUpdate (i : string) (input : PartialInput) (t : Z)
  | OpDelete (i : string).

Definition exec (o : Op) (st : StorageItem) : StorageItem :=
  match o with
  | OpCreate input newId t1 t2 => state_of (createProperty input newId t1 t2 st)
  | OpUpdate i input t => state_of (updateProperty i input t st)
  | OpDelete i => state_of (deleteProperty i st)
  end.

Fixpoint run (ops : list Op) (st : StorageItem) : StorageItem :=
  match ops with
  | [] => st
  | o :: r => run r (exec o st)
  end.

End Crud.

(** The clock never goes backwards: starting from [now], every reading of
    [new Date()] along the operations is at least the previous one. *)
Fixpoint clock_ok (now : Z) (ops : list Op) : Prop :=
  match ops with
  | [] => True
  | OpCreate _ _ t1 t2 :: r => now <= t1 /\ t1 <= t2 /\ clock_ok t2 r
  | OpUpdate _ _ t :: r => now <= t /\ clock_ok t r
  | OpDelete _ :: r => clock_ok now r
  end.

(** Every stored listing has [createdAt <= updatedAt] and was created no
    later than [now]. *)
Definition timestamps_ok (now : Z) (st : StorageItem) : Prop :=
  Forall (fun p => createdAt p <= updatedAt p /\ createdAt p <= now) (getAllProperties st).

(* ------------------------------------------------------------------ *)
(** ** Lookup of [storage.ts] *)

(** [getPropertyById]: [properties.find((p) => p.id === id)]. *)
Definition getPropertyById (i : string) (st : StorageItem) : option Property :=
  find (fun p => String.eqb (id p) i) (getAllProperties st).

(* ------------------------------------------------------------------ *)
(** ** Repository: [findById] and [update] *)

(** [propertyRepository.findById]: [findUnique] on the primary key [id]. *)
Definition findById (i : string) (db : list Property) : option Property :=
  find (fun p => String.eqb (id p) i) db.

(** [propertyRepository.update]: [findUnique], [null] when absent, else
    [prisma.property.update] of that row with the fields present in [data]
    ([toPrismaData] turns the arrays into JSON text, which [toProperty]
    decodes back). [t] is the value the engine writes into the
    [updatedAt] column. *)
Definition repo_update (i : string) (data : PartialInput) (t : Z) (db : list Property)
  : option Property * list Property :=
  match findById i db with
  | None => (None, db)
  | Some existing =>
      let property := merge existing data t in
      (Some property, map (fun p => if String.eqb (id p) i then property else p) db)
  end.

(* ------------------------------------------------------------------ *)
(** ** Controller ([propertyController.ts]) and frontend client ([api.ts]) *)

(** The [data] or [error] member of a JSON response; an error is kept by
    its [code]. *)
Inductive Payload :=
  | PProperty (p : Property)
  | PProperties (l : list Property)
  | PMessage (message : string)
  | PError (code : string).

Record Response := mkResponse { status : Z; success : bool; data : Payload }.

Module Controller.

Definition not_found : Response := mkResponse 404 false (PError "NOT_FOUND").

Section Handlers.
(** The request body as parsed by [express.json()], and
    [updatePropertySchema.safeParse] on it. *)
Context {Body : Type}.
Variable updatePropertySchema_safeParse : Body -> option PartialInput.

(** [GET /api/properties]. *)
Definition getAllProperties (q : ParamBag) (db : list Property) : Response :=
  mkResponse 200 true (PProperties (findAll (Some (decode q)) db)).

(** [GET /api/properties/:id]. *)
Definition getPropertyById (i : string) (db : list Property) : Response :=
  match findById i db with
  | None => not_found
  | Some property => mkResponse 200 true (PProperty property)
  end.

(** [PUT /api/properties/:id]: validation first, then the repository. *)
Definition updateProperty (i : string) (body : Body) (t : Z) (db : list Property)
  : Response * list Property :=
  match updatePropertySchema_safeParse body with
  | None => (mkResponse 400 false (PError "VALIDATION_ERROR"), db)
  | Some validated =>
      match repo_update i validated t db with
      | (None, db') => (not_found, db')
      | (Some property, db') => (mkResponse 200 true (PProperty property), db')
      end
  end.

(** [DELETE /api/properties/:id]. *)
Definition deleteProperty (i : string) (db : list Property) : Response * list Property :=
  let (deleted, db') := repo_delete i db in
  if deleted then (mkResponse 200 true (PMessage "Propiedad eliminada correctamente"), db')
  else (not_found, db').

End Handlers.
End Controller.

(** Where a request for the URL [`${API_BASE_URL}/properties/${id}`] lands.
    The client inserts [id] into the URL as it is: the URL parser ends the
    path at a ['?'] or ['#'], resolves dot segments and splits at ['/'],
    and Express percent-decodes the [:id] parameter. The request reaches
    [/properties/:id] with the id the server sees, the collection route
    [/properties] with the query string, or no route (the 404 of
    [notFoundHandler]; an undecodable parameter is answered by
    [errorHandler] with [success: false]). *)
Inductive Route :=
  | ToItem (i : string)
  | ToCollection (q : ParamBag)
  | NotRouted.

(** The part of [id] before its first ['?'] or ['#']: the path segment of
    the URL. *)
Fixpoint path_segment (s : string) : string :=
  match s with
  | EmptyString => EmptyString
  | String c r =>
      if Ascii.eqb c "?"%char || Ascii.eqb c "#"%char then EmptyString
      else String c (path_segment r)
  end.

(** The routing of an id made of letters, digits, ['-'], ['_'], ['?'] and
    ['#'] that does not start with ['?'] or ['#']: the path segment reaches
    [/properties/:id] unchanged, the rest is a query or fragment. *)
Definition segment_route (i : string) : Route := ToItem (path_segment i).

Module Api.
Section Client.
Context {Body : Type}.
Variable updatePropertySchema_safeParse : Body -> option PartialInput.
(** [JSON.stringify(input)] as the server's body parser reads it. *)
Variable toBody : PartialInput -> Body.
(** Where [fetch] of [`${API_BASE_URL}/properties/${id}`] lands. *)
Variable route : string -> Route.

(** [const result = await response.json()], then [result.data] on
    success; a property where one is expected. *)
Definition property_of (r : Response) : option Property :=
  if success r then match data r with PProperty p => Some p | _ => None end else None.

(** [getAllProperties(filters?)]: the query string of [encode], then the
    server's answer. *)
Definition getAllProperties (filters : option PropertyFilters.t) (db : list Property)
  : list Property :=
  let result := Controller.getAllProperties (encode filters) db in
  if success result then match data result with PProperties l => l | _ => [] end else [].

(** [filterProperties(filters)]: [return getAllProperties(filters)]. *)
Definition filterProperties (filters : PropertyFilters.t) (db : list Property) : list Property :=
  getAllProperties (Some filters) db.

(** [result.data] of a JSON answer with [success: true]. *)
Definition data_of (r : Response) : option Payload :=
  if success r then Some (data r) else None.

(** [getPropertyById(id)]: [GET `${API_BASE_URL}/properties/${id}`]; a 404
    gives [undefined], otherwise [result.data] when [result.success]. The
    collection route answers with the array of [getAllProperties], which
    the client returns as it is. *)
Definition getPropertyById (i : string) (db : list Property) : option Payload :=
  match route i with
  | ToItem j =>
      let response := Controller.getPropertyById j db in
      if status response =? 404 then None else data_of response
  | ToCollection q =>
      let response := Controller.getAllProperties q db in
      if status response =? 404 then None else data_of response
  | NotRouted => None
  end.

(** [updateProperty(id, input)]: [PUT `${API_BASE_URL}/properties/${id}`].
    The router has no [PUT /], so a request that does not reach
    [/properties/:id] gets the 404 of [notFoundHandler] (or an error answer
    with [success: false]), and the client returns [null]. *)
Definition updateProperty (i : string) (input : PartialInput) (t : Z) (db : list Property)
  : option Property * list Property :=
  match route i with
  | ToItem j =>
      let (response, db') :=
        Controller.updateProperty updatePropertySchema_safeParse j (toBody input) t db in
      (if status response =? 404 then None else property_of response, db')
  | _ => (None, db)
  end.

(** [deleteProperty(id)]: [DELETE `${API_BASE_URL}/properties/${id}`]; no
    [DELETE /] either, so a request that does not reach [/properties/:id]
    gives [false]. *)
Definition deleteProperty (i : string) (db : list Property) : bool * list Property :=
  match route i with
  | ToItem j =>
      let (response, db') := Controller.deleteProperty j db in
      (if status response =? 404 then false else success response, db')
  | _ => (false, db)
  end.

End Client.
End Api.

(* ------------------------------------------------------------------ *)
(** ** The filter state of [HomePage] *)

(** [keyof PropertyFilters]. *)
Inductive FilterKey :=
  | KSearch | KPropertyType | KOperationType | KMinPrice | KMaxPrice
  | KMinBedrooms | KCity.

(** The page passes strings for the text and enum keys (input text,
    select value) and numbers for the numeric keys. *)
Definition key_value (k : FilterKey) : Type :=
  match k with
  | KMinPrice | KMaxPrice | KMinBedrooms => num
  | _ => string
  end.

(** [setFilters((prev) => ({ ...prev, [key]: value === 'all' ? undefined
    : value }))]; a number is never [=== 'all']. *)
Definition handleFilterChange (key : FilterKey)
  : key_value key -> PropertyFilters.t -> PropertyFilters.t :=
  match key as k return key_value k -> PropertyFilters.t -> PropertyFilters.t with
  | KSearch => fun value prev =>
      PropertyFilters.mk (if String.eqb value "all" then None else Some value)
        (PropertyFilters.propertyType prev) (PropertyFilters.operationType prev)
        (PropertyFilters.minPrice prev) (PropertyFilters.maxPrice prev)
        (PropertyFilters.minBedrooms prev) (PropertyFilters.city prev)
  | KPropertyType => fun value prev =>
      PropertyFilters.mk (PropertyFilters.search prev)
        (if String.eqb value "all" then None else Some value)
        (PropertyFilters.operationType prev)
        (PropertyFilters.minPrice prev) (PropertyFilters.maxPrice prev)
        (PropertyFilters.minBedrooms prev) (PropertyFilters.city prev)
  | KOperationType => fun value prev =>
      PropertyFilters.mk (PropertyFilters.search prev) (PropertyFilters.propertyType prev)
        (if String.eqb value "all" then None else Some value)
        (PropertyFilters.minPrice prev) (PropertyFilters.maxPrice prev)
        (PropertyFilters.minBedrooms prev) (PropertyFilters.city prev)
  | KMinPrice => fun value prev =>
      PropertyFilters.mk (PropertyFilters.search prev) (PropertyFilters.propertyType prev)
        (PropertyFilters.operationType prev) (Some value) (PropertyFilters.maxPrice prev)
        (PropertyFilters.minBedrooms prev) (PropertyFilters.city prev)
  | KMaxPrice => fun value prev =>
      PropertyFilters.mk (PropertyFilters.search prev) (PropertyFilters.propertyType prev)
        (PropertyFilters.operationType prev) (PropertyFilters.minPrice prev) (Some value)
        (PropertyFilters.minBedrooms prev) (PropertyFilters.city prev)
  | KMinBedrooms => fun value prev =>
      PropertyFilters.mk (PropertyFilters.search prev) (PropertyFilters.propertyType prev)
        (PropertyFilters.operationType prev) (PropertyFilters.minPrice prev)
        (PropertyFilters.maxPrice prev) (Some value) (PropertyFilters.city prev)
  | KCity => fun value prev =>
      PropertyFilters.mk (PropertyFilters.search prev) (PropertyFilters.propertyType prev)
        (PropertyFilters.operationType prev) (PropertyFilters.minPrice prev)
        (PropertyFilters.maxPrice prev) (PropertyFilters.minBedrooms prev)
        (if String.eqb value "all" then None else Some value)
  end.

(** The [onChange] of the numeric inputs:
    [e.target.value ? Number(e.target.value) : 0]. *)
Definition numberInputValue (value : string) : num :=
  if String.eqb value "" then Fin 0 else Number value.

(** [v !== undefined && v !== '' && v !== 0] on a string or a number. *)
Definition active_str (o : option string) : bool :=
  match o with Some v => negb (String.eqb v "") | None => false end.
Definition active_num (o : option num) : bool :=
  match o with Some (Fin z) => negb (z =? 0) | Some NaN => true | None => false end.

(** [Object.values(filters).some(...)]. *)
Definition hasFilters (f : PropertyFilters.t) : bool :=
  active_str (PropertyFilters.search f) || active_str (PropertyFilters.propertyType f)
  || active_str (PropertyFilters.operationType f) || active_num (PropertyFilters.minPrice f)
  || active_num (PropertyFilters.maxPrice f) || active_num (PropertyFilters.minBedrooms f)
  || active_str (PropertyFilters.city f).


(* ================================================================== *)
(** * Lemmas *)

(** ** The sort *)

Lemma insert_desc_perm x l : Permutation (x :: l) (insert_desc x l).
Proof.
  induction l as [|y ys IH]; simpl; [reflexivity|].
  destruct (createdAt y <=? createdAt x); [reflexivity|].
  rewrite perm_swap. now apply perm_skip.
Qed.

Lemma sort_desc_perm l : Permutation l (sort_desc l).
Proof.
  induction l as [|x r IH]; simpl; [constructor|].
  rewrite <- insert_desc_perm. now apply perm_skip.
Qed.

Lemma In_sort_desc p l : In p (sort_desc l) <-> In p l.
Proof.
  split; apply Permutation_in; [symmetry|]; apply sort_desc_perm.
Qed.

Lemma insert_desc_sorted x l :
  Sorted newest_first l -> Sorted newest_first (insert_desc x l).
Proof.
  unfold newest_first.
  induction 1 as [|y ys Hs IH Hhd]; simpl.
  - repeat constructor.
  - destruct (createdAt y <=? createdAt x) eqn:E.
    + apply Z.leb_le in E. constructor; [now constructor|]. now constructor.
    + apply Z.leb_gt in E. constructor; [exact IH|].
      destruct ys as [|z zs]; simpl; [constructor; lia|].
      inversion Hhd; subst.
      destruct (createdAt z <=? createdAt x); constructor; lia.
Qed.

Lemma sort_desc_sorted l : Sorted newest_first (sort_desc l).
Proof.
  induction l as [|x r IH]; simpl; [constructor|]. now apply insert_desc_sorted.
Qed.

(** ** Filters *)

Lemma filter_true {A} (l : list A) : filter (fun _ => true) l = l.
Proof. induction l; simpl; congruence. Qed.

Lemma filter_filter_and {A} (g h : A -> bool) l :
  filter g (filter h l) = filter (fun x => h x && g x) l.
Proof.
  induction l as [|x r IH]; simpl; [reflexivity|].
  destruct (h x); simpl; [destruct (g x); simpl; congruence | exact IH].
Qed.

Lemma pass_if (b : bool) (P : Property -> bool) l :
  (if b then filter P l else l) = filter (fun p => if b then P p else true) l.
Proof. destruct b; [reflexivity|]. symmetry; apply filter_true. Qed.

Lemma pass_gated (o : option num) (Q : num -> Property -> bool) l :
  match gated o with Some m => filter (Q m) l | None => l end
  = filter (fun p => match gated o with Some m => Q m p | None => true end) l.
Proof. destruct (gated o); [reflexivity|]. symmetry; apply filter_true. Qed.

(** [filterProperties] is the sort of one [filter] by [local_match]. *)
Lemma filterProperties_spec f st :
  filterProperties f st = (sort_desc (filter (local_match f) (getAllProperties st)), st).
Proof.
  unfold filterProperties; cbv zeta.
  rewrite (pass_if (truthy (PropertyFilters.search f))),
    (pass_if (truthy (PropertyFilters.propertyType f))),
    (pass_if (truthy (PropertyFilters.operationType f))),
    (pass_gated (PropertyFilters.minPrice f)), (pass_gated (PropertyFilters.maxPrice f)),
    (pass_gated (PropertyFilters.minBedrooms f)),
    (pass_if (truthy (PropertyFilters.city f))), !filter_filter_and.
  f_equal. f_equal. apply filter_ext. intros p.
  unfold local_match. now rewrite !andb_assoc.
Qed.

Lemma In_filterProperties f st p :
  In p (fst (filterProperties f st)) <->
  In p (getAllProperties st) /\ local_match f p = true.
Proof.
  rewrite filterProperties_spec; simpl. now rewrite In_sort_desc, filter_In.
Qed.

Lemma In_findAll f db p :
  In p (findAll f db) <-> In p db /\ eval_where (buildWhereClause f) p = true.
Proof. unfold findAll. now rewrite In_sort_desc, filter_In. Qed.

(** ** [Number(String(x))] *)

Fixpoint no_ws (s : string) : Prop :=
  match s with
  | EmptyString => True
  | String c r => is_ws c = false /\ no_ws r
  end.

Lemma trim_end_no_ws s : no_ws s -> trim_end s = s.
Proof.
  induction s as [|c r IH]; simpl; [reflexivity|].
  intros [Hc Hr]. rewrite IH by exact Hr. rewrite Hc, andb_false_r. reflexivity.
Qed.

Lemma string_of_uint_no_ws u : no_ws (NilEmpty.string_of_uint u).
Proof. induction u; simpl; auto. Qed.

Lemma string_of_uint_nil u : NilEmpty.string_of_uint u = "" -> u = Decimal.Nil.
Proof. destruct u; simpl; congruence. Qed.

Lemma string_of_to_uint_nonempty n : NilEmpty.string_of_uint (N.to_uint n) <> "".
Proof.
  intros H. apply string_of_uint_nil in H.
  assert (Hn : n = 0%N) by (rewrite <- (Unsigned.of_to n), H; reflexivity).
  subst n. discriminate H.
Qed.

Lemma digits_value_uint n :
  digits_value (NilEmpty.string_of_uint (N.to_uint n)) = Some (Z.of_N n).
Proof.
  unfold digits_value.
  destruct (String.eqb_spec (NilEmpty.string_of_uint (N.to_uint n)) "") as [E|_].
  - now apply string_of_to_uint_nonempty in E.
  - rewrite NilEmpty.usu. simpl. now rewrite Unsigned.of_to.
Qed.

Lemma trim_no_ws s : no_ws s -> trim s = s.
Proof.
  intros H. unfold trim.
  destruct s as [|c r]; [reflexivity|].
  simpl trim_start. destruct H as [Hc Hr]. rewrite Hc.
  now apply trim_end_no_ws.
Qed.

Lemma Number_num_String x : Number (num_String x) = x.
Proof.
  destruct x as [z|]; [|reflexivity].
  unfold num_String, Number.
  destruct (z <? 0) eqn:Hz.
  - apply Z.ltb_lt in Hz.
    rewrite trim_no_ws by (split; [reflexivity | apply string_of_uint_no_ws]).
    cbn [Ascii.eqb]. simpl. rewrite digits_value_uint.
    rewrite Z2N.id by lia. f_equal. lia.
  - apply Z.ltb_ge in Hz.
    rewrite trim_no_ws by apply string_of_uint_no_ws.
    pose proof (digits_value_uint (Z.to_N z)) as Hd.
    rewrite Z2N.id in Hd by lia.
    pose proof (string_of_to_uint_nonempty (Z.to_N z)) as Hne.
    revert Hd Hne.
    destruct (N.to_uint (Z.to_N z)) eqn:E; intros Hd Hne;
      [now contradiction Hne|..]; simpl in Hd |- *; now rewrite Hd.
Qed.

Lemma num_String_nonempty x : num_String x <> "".
Proof.
  destruct x as [z|]; simpl; [|discriminate].
  destruct (z <? 0); [discriminate | apply string_of_to_uint_nonempty].
Qed.

Lemma truthy_num_String x : truthy (Some (num_String x)) = true.
Proof.
  unfold truthy. destruct (String.eqb_spec (num_String x) "") as [E|_]; [|reflexivity].
  now apply num_String_nonempty in E.
Qed.

(** ** Parameter bags *)

Definition remove_param (k : string) (q : ParamBag) : ParamBag :=
  filter (fun kv => negb (String.eqb (fst kv) k)) q.

Lemma query_remove_same k q : query k (remove_param k q) = None.
Proof.
  induction q as [|[k' v] r IH]; simpl; [reflexivity|].
  destruct (String.eqb_spec k' k) as [->|Hne]; simpl; [exact IH|].
  destruct (String.eqb_spec k k'); [congruence | exact IH].
Qed.

Lemma query_remove_other k k' q : k <> k' -> query k (remove_param k' q) = query k q.
Proof.
  intros Hk. induction q as [|[k0 v] r IH]; simpl; [reflexivity|].
  destruct (String.eqb_spec k0 k') as [->|Hne]; simpl.
  - destruct (String.eqb_spec k k'); [congruence | exact IH].
  - destruct (String.eqb k k0); [reflexivity | exact IH].
Qed.

(** ** Splitting [local_match] and [eval_where] field by field *)

Lemma includes_empty s : includes s "" = true.
Proof. destruct s; reflexivity. Qed.

Lemma local_match_search f p :
  local_match f p = search_ok f p && local_match (with_search f None) p.
Proof.
  destruct f; unfold local_match, search_ok, propertyType_ok, operationType_ok,
    minPrice_ok, maxPrice_ok, minBedrooms_ok, city_ok; simpl. btauto.
Qed.

Lemma local_match_propertyType f p :
  local_match f p = propertyType_ok f p && local_match (with_propertyType f None) p.
Proof.
  destruct f; unfold local_match, search_ok, propertyType_ok, operationType_ok,
    minPrice_ok, maxPrice_ok, minBedrooms_ok, city_ok; simpl. btauto.
Qed.

Lemma local_match_operationType f p :
  local_match f p = operationType_ok f p && local_match (with_operationType f None) p.
Proof.
  destruct f; unfold local_match, search_ok, propertyType_ok, operationType_ok,
    minPrice_ok, maxPrice_ok, minBedrooms_ok, city_ok; simpl. btauto.
Qed.

Lemma local_match_prices f p :
  local_match f p = minPrice_ok f p && maxPrice_ok f p
                    && local_match (with_prices f None None) p.
Proof.
  destruct f; unfold local_match, search_ok, propertyType_ok, operationType_ok,
    minPrice_ok, maxPrice_ok, minBedrooms_ok, city_ok; simpl. btauto.
Qed.

Lemma local_match_empty p : local_match PropertyFilters.empty p = true.
Proof. reflexivity. Qed.

Lemma eval_where_empty p : eval_where Where.empty p = true.
Proof. reflexivity. Qed.

Lemma filter_all_true (g : Property -> bool) l : (forall p, g p = true) -> filter g l = l.
Proof.
  intros Hg. rewrite (filter_ext g (fun _ => true)) by exact Hg. apply filter_true.
Qed.

(** A concrete listing: the city is the only text field naming Valencia. *)
Definition casa_valencia : Property :=
  mkProperty "p1" "Casa junto al mar" "Luminosa casa con terraza y vistas"
    "casa" "venta" 250000 "Paseo de la playa 12" "Valencia"
    3 2 120 ["terraza"] [] 1000 1000.

Definition only_search (s : string) : PropertyFilters.t :=
  with_search PropertyFilters.empty (Some s).

(* ================================================================== *)
(** * Claims *)

(** ** C1 *)

(** C1 (counterexample): with [search = "valencia"] the local filter keeps
    a listing whose title, description and address do not contain
    "valencia"; only its city does. *)
Lemma C1_search_matches_city :
  In casa_valencia (fst (filterProperties (only_search "valencia") (Saved [casa_valencia])))
  /\ includes (toLowerCase (title casa_valencia)) "valencia" = false
  /\ includes (toLowerCase (description casa_valencia)) "valencia" = false
  /\ includes (toLowerCase (address casa_valencia)) "valencia" = false.
Proof.
  repeat split; [|reflexivity..].
  vm_compute. left. reflexivity.
Qed.

(** C1 (amended): with [search = s] set, a listing is in the result of
    [filterProperties] iff the lowercased [s] is a substring of its
    lowercased title, description, address or city, and it passes every
    other filter of [F] (the result of the same filter without [search]). *)
Theorem filterProperties_search_disjunction (f : PropertyFilters.t) (s : string)
  (st : StorageItem) (p : Property) (Hs : PropertyFilters.search f = Some s) :
  In p (fst (filterProperties f st)) <->
  In p (getAllProperties st)
  /\ (includes (toLowerCase (title p)) (toLowerCase s) = true
      \/ includes (toLowerCase (description p)) (toLowerCase s) = true
      \/ includes (toLowerCase (address p)) (toLowerCase s) = true
      \/ includes (toLowerCase (city p)) (toLowerCase s) = true)
  /\ local_match (with_search f None) p = true.
Proof.
  rewrite In_filterProperties, local_match_search, andb_true_iff.
  unfold search_ok. rewrite Hs.
  assert (Hhit : search_hit (toLowerCase s) p = true <->
    (includes (toLowerCase (title p)) (toLowerCase s) = true
     \/ includes (toLowerCase (description p)) (toLowerCase s) = true
     \/ includes (toLowerCase (address p)) (toLowerCase s) = true
     \/ includes (toLowerCase (city p)) (toLowerCase s) = true)).
  { unfold search_hit. rewrite !orb_true_iff. tauto. }
  unfold truthy, or_empty.
  destruct (String.eqb_spec s "") as [->|Hne]; simpl.
  - rewrite includes_empty. tauto.
  - rewrite Hhit. tauto.
Qed.

Lemma C1_witness :
  PropertyFilters.search (only_search "mar") = Some "mar" /\
  (In casa_valencia (fst (filterProperties (only_search "mar") (Saved [casa_valencia]))) <->
   In casa_valencia (getAllProperties (Saved [casa_valencia]))
   /\ (includes (toLowerCase (title casa_valencia)) (toLowerCase "mar") = true
       \/ includes (toLowerCase (description casa_valencia)) (toLowerCase "mar") = true
       \/ includes (toLowerCase (address casa_valencia)) (toLowerCase "mar") = true
       \/ includes (toLowerCase (city casa_valencia)) (toLowerCase "mar") = true)
   /\ local_match (with_search (only_search "mar") None) casa_valencia = true).
Proof.
  split; [reflexivity|].
  apply filterProperties_search_disjunction. reflexivity.
Defined.

(** ** C4 *)

(** C4: with every field of the filters unset, the local filter and the
    remote repository (called with no filters, with the empty filters, or
    through the controller with an empty parameter bag) return the whole
    collection, as a permutation of it, ordered newest first. *)
Theorem unset_filters_return_all (st : StorageItem) (db : list Property) :
  fst (filterProperties PropertyFilters.empty st) = sort_desc (getAllProperties st)
  /\ Permutation (getAllProperties st) (fst (filterProperties PropertyFilters.empty st))
  /\ Sorted newest_first (fst (filterProperties PropertyFilters.empty st))
  /\ findAll None db = sort_desc db
  /\ findAll (Some PropertyFilters.empty) db = sort_desc db
  /\ getAllProperties_ctrl [] db = sort_desc db
  /\ Permutation db (sort_desc db)
  /\ Sorted newest_first (sort_desc db).
Proof.
  assert (Hl : fst (filterProperties PropertyFilters.empty st) = sort_desc (getAllProperties st)).
  { rewrite filterProperties_spec; simpl.
    now rewrite filter_all_true by apply local_match_empty. }
  assert (Hr : findAll (Some PropertyFilters.empty) db = sort_desc db).
  { unfold findAll. now rewrite filter_all_true by apply eval_where_empty. }
  rewrite Hl. repeat split.
  - apply sort_desc_perm.
  - apply sort_desc_sorted.
  - unfold findAll. now rewrite filter_all_true by apply eval_where_empty.
  - exact Hr.
  - exact Hr.
  - apply sort_desc_perm.
  - apply sort_desc_sorted.
Qed.

(** ** C5 *)

Lemma with_propertyType_twice f a b :
  with_propertyType (with_propertyType f a) b = with_propertyType f b.
Proof. destruct f; reflexivity. Qed.

Lemma with_operationType_twice f a b :
  with_operationType (with_operationType f a) b = with_operationType f b.
Proof. destruct f; reflexivity. Qed.

Lemma with_prices_twice f a b c d :
  with_prices (with_prices f a b) c d = with_prices f c d.
Proof. destruct f; reflexivity. Qed.

Lemma truthy_nonempty c : c <> "" -> truthy (Some c) = true.
Proof. intros Hc. unfold truthy. destruct (String.eqb_spec c ""); [congruence|reflexivity]. Qed.

Lemma eval_where_propertyType f c p :
  c <> "" ->
  eval_where (buildWhereClause (Some (with_propertyType f (Some c)))) p
  = String.eqb (propertyType p) c
    && eval_where (buildWhereClause (Some (with_propertyType f None))) p.
Proof.
  intros Hc. assert (He : String.eqb c "" = false) by (apply String.eqb_neq; exact Hc).
  destruct f; unfold buildWhereClause, eval_where; simpl.
  rewrite ?He. simpl. btauto.
Qed.

Lemma eval_where_operationType f c p :
  c <> "" ->
  eval_where (buildWhereClause (Some (with_operationType f (Some c)))) p
  = String.eqb (operationType p) c
    && eval_where (buildWhereClause (Some (with_operationType f None))) p.
Proof.
  intros Hc. assert (He : String.eqb c "" = false) by (apply String.eqb_neq; exact Hc).
  destruct f; unfold buildWhereClause, eval_where; simpl.
  rewrite ?He. simpl. btauto.
Qed.

Lemma eval_where_prices f lo hi p :
  eval_where (buildWhereClause (Some (with_prices f lo hi))) p
  = opt_test lo (ge_num (price p)) && opt_test hi (le_num (price p))
    && eval_where (buildWhereClause (Some (with_prices f None None))) p.
Proof.
  destruct f; unfold buildWhereClause, eval_where; simpl.
  destruct lo, hi; simpl; btauto.
Qed.

Lemma local_propertyType_split f c st p :
  c <> "" ->
  In p (fst (filterProperties (with_propertyType f (Some c)) st)) <->
  In p (getAllProperties st) /\ propertyType p = c
  /\ local_match (with_propertyType f None) p = true.
Proof.
  intros Hc. assert (He : String.eqb c "" = false) by (apply String.eqb_neq; exact Hc).
  rewrite In_filterProperties, local_match_propertyType, with_propertyType_twice.
  unfold propertyType_ok.
  change (PropertyFilters.propertyType (with_propertyType f (Some c))) with (Some c).
  unfold truthy, or_empty. rewrite He. simpl.
  rewrite andb_true_iff, String.eqb_eq. tauto.
Qed.

Lemma local_operationType_split f c st p :
  c <> "" ->
  In p (fst (filterProperties (with_operationType f (Some c)) st)) <->
  In p (getAllProperties st) /\ operationType p = c
  /\ local_match (with_operationType f None) p = true.
Proof.
  intros Hc. assert (He : String.eqb c "" = false) by (apply String.eqb_neq; exact Hc).
  rewrite In_filterProperties, local_match_operationType, with_operationType_twice.
  unfold operationType_ok.
  change (PropertyFilters.operationType (with_operationType f (Some c))) with (Some c).
  unfold truthy, or_empty. rewrite He. simpl.
  rewrite andb_true_iff, String.eqb_eq. tauto.
Qed.

Lemma remote_propertyType_split f c db p :
  c <> "" ->
  In p (findAll (Some (with_propertyType f (Some c))) db) <->
  In p db /\ propertyType p = c
  /\ eval_where (buildWhereClause (Some (with_propertyType f None))) p = true.
Proof.
  intros Hc. rewrite In_findAll, eval_where_propertyType by exact Hc.
  rewrite andb_true_iff, String.eqb_eq. tauto.
Qed.

Lemma remote_operationType_split f c db p :
  c <> "" ->
  In p (findAll (Some (with_operationType f (Some c))) db) <->
  In p db /\ operationType p = c
  /\ eval_where (buildWhereClause (Some (with_operationType f None))) p = true.
Proof.
  intros Hc. rewrite In_findAll, eval_where_operationType by exact Hc.
  rewrite andb_true_iff, String.eqb_eq. tauto.
Qed.

(** C5: with [propertyType] (or [operationType]) set to a category [c], a
    listing is in the result iff its field equals [c] exactly and it
    satisfies the rest of the filters, in the local [filterProperties] and
    in the remote [findAll]. *)
Theorem category_filter_conjunction (f : PropertyFilters.t) (c : string)
  (st : StorageItem) (db : list Property) (p : Property) (Hc : c <> "") :
  (In p (fst (filterProperties (with_propertyType f (Some c)) st)) <->
   In p (getAllProperties st) /\ propertyType p = c
   /\ local_match (with_propertyType f None) p = true)
  /\ (In p (fst (filterProperties (with_operationType f (Some c)) st)) <->
      In p (getAllProperties st) /\ operationType p = c
      /\ local_match (with_operationType f None) p = true)
  /\ (In p (findAll (Some (with_propertyType f (Some c))) db) <->
      In p db /\ propertyType p = c
      /\ eval_where (buildWhereClause (Some (with_propertyType f None))) p = true)
  /\ (In p (findAll (Some (with_operationType f (Some c))) db) <->
      In p db /\ operationType p = c
      /\ eval_where (buildWhereClause (Some (with_operationType f None))) p = true).
Proof.
  refine (conj _ (conj _ (conj _ _))).
  - now apply local_propertyType_split.
  - now apply local_operationType_split.
  - now apply remote_propertyType_split.
  - now apply remote_operationType_split.
Qed.

Lemma C5_witness :
  "casa" <> "" /\
  ((In casa_valencia (fst (filterProperties (with_propertyType PropertyFilters.empty (Some "casa"))
        (Saved [casa_valencia]))) <->
    In casa_valencia (getAllProperties (Saved [casa_valencia]))
    /\ propertyType casa_valencia = "casa"
    /\ local_match (with_propertyType PropertyFilters.empty None) casa_valencia = true)
   /\ (In casa_valencia (fst (filterProperties (with_operationType PropertyFilters.empty (Some "casa"))
          (Saved [casa_valencia]))) <->
       In casa_valencia (getAllProperties (Saved [casa_valencia]))
       /\ operationType casa_valencia = "casa"
       /\ local_match (with_operationType PropertyFilters.empty None) casa_valencia = true)
   /\ (In casa_valencia (findAll (Some (with_propertyType PropertyFilters.empty (Some "casa")))
          [casa_valencia]) <->
       In casa_valencia [casa_valencia] /\ propertyType casa_valencia = "casa"
       /\ eval_where (buildWhereClause (Some (with_propertyType PropertyFilters.empty None)))
            casa_valencia = true)
   /\ (In casa_valencia (findAll (Some (with_operationType PropertyFilters.empty (Some "casa")))
          [casa_valencia]) <->
       In casa_valencia [casa_valencia] /\ operationType casa_valencia = "casa"
       /\ eval_where (buildWhereClause (Some (with_operationType PropertyFilters.empty None)))
            casa_valencia = true)).
Proof.
  split; [discriminate|].
  apply category_filter_conjunction. discriminate.
Defined.

(** ** C6 *)

Definition price_range (lo hi : Z) : PropertyFilters.t :=
  with_prices PropertyFilters.empty (Some (Fin lo)) (Some (Fin hi)).

(** C6 (counterexample): the local filter with [minPrice = maxPrice = 0]
    keeps a listing priced 250000. *)
Lemma C6_zero_bounds_ignored :
  In casa_valencia (fst (filterProperties (price_range 0 0) (Saved [casa_valencia])))
  /\ price casa_valencia <> 0.
Proof.
  split; [|discriminate].
  vm_compute. left. reflexivity.
Qed.

Lemma local_prices_split f P st p :
  In p (fst (filterProperties (with_prices f (Some (Fin P)) (Some (Fin P))) st)) <->
  In p (getAllProperties st)
  /\ (if 0 <? P then price p = P else True)
  /\ local_match (with_prices f None None) p = true.
Proof.
  rewrite In_filterProperties, local_match_prices, with_prices_twice.
  unfold minPrice_ok, maxPrice_ok.
  change (PropertyFilters.minPrice (with_prices f (Some (Fin P)) (Some (Fin P))))
    with (Some (Fin P)).
  change (PropertyFilters.maxPrice (with_prices f (Some (Fin P)) (Some (Fin P))))
    with (Some (Fin P)).
  unfold gated, num_pos, ge_num, le_num.
  destruct (0 <? P); simpl.
  - rewrite !andb_true_iff, Z.leb_le, Z.leb_le.
    split; intros H; decompose [and] H; repeat split; auto; lia.
  - tauto.
Qed.

Lemma minPrice_with_prices f a b : PropertyFilters.minPrice (with_prices f a b) = a.
Proof. reflexivity. Qed.

Lemma maxPrice_with_prices f a b : PropertyFilters.maxPrice (with_prices f a b) = b.
Proof. reflexivity. Qed.

Lemma local_min_bound (lo : option Z) (x : Z) :
  match gated (option_map Fin lo) with Some m => ge_num x m | None => true end = true <->
  (forall a, lo = Some a -> 0 < a -> a <= x).
Proof.
  destruct lo as [a|]; simpl; [|split; [intros _ b [=] | reflexivity]].
  unfold num_pos. destruct (Z.ltb_spec 0 a); simpl.
  - rewrite Z.leb_le. split; [intros Hx b [= <-] _; exact Hx | intros Hx; now apply Hx].
  - split; [intros _ b [= <-] Hb; lia | reflexivity].
Qed.

Lemma local_max_bound (hi : option Z) (x : Z) :
  match gated (option_map Fin hi) with Some m => le_num x m | None => true end = true <->
  (forall b, hi = Some b -> 0 < b -> x <= b).
Proof.
  destruct hi as [b|]; simpl; [|split; [intros _ c [=] | reflexivity]].
  unfold num_pos. destruct (Z.ltb_spec 0 b); simpl.
  - rewrite Z.leb_le. split; [intros Hx c [= <-] _; exact Hx | intros Hx; now apply Hx].
  - split; [intros _ c [= <-] Hc; lia | reflexivity].
Qed.

Lemma remote_min_bound (lo : option Z) (x : Z) :
  opt_test (option_map Fin lo) (ge_num x) = true <-> (forall a, lo = Some a -> a <= x).
Proof.
  destruct lo as [a|]; simpl; [|split; [intros _ b [=] | reflexivity]].
  rewrite Z.leb_le. split; [intros H b [= <-]; exact H | intros H; now apply H].
Qed.

Lemma remote_max_bound (hi : option Z) (x : Z) :
  opt_test (option_map Fin hi) (le_num x) = true <-> (forall b, hi = Some b -> x <= b).
Proof.
  destruct hi as [b|]; simpl; [|split; [intros _ c [=] | reflexivity]].
  rewrite Z.leb_le. split; [intros H c [= <-]; exact H | intros H; now apply H].
Qed.

(** C6 (amended): with [minPrice = maxPrice = P], the local filter keeps
    exactly the listings priced [P] (among those passing the other
    filters) when [P > 0], and applies no price bound at all when
    [P <= 0]; the remote [findAll] keeps exactly the listings priced [P]
    for every [P]. In general, for any minimum [lo] and maximum [hi], set
    or unset: the local filter applies a bound only when it is set and
    [> 0], the remote one whenever it is set, both bounds are inclusive,
    and an unset bound imposes nothing. *)
Theorem equal_price_bounds (f : PropertyFilters.t) (P : Z) (lo hi : option Z)
  (st : StorageItem) (db : list Property) (p : Property) :
  (0 < P ->
   (In p (fst (filterProperties (with_prices f (Some (Fin P)) (Some (Fin P))) st)) <->
    In p (getAllProperties st) /\ price p = P
    /\ local_match (with_prices f None None) p = true))
  /\ (P <= 0 ->
      (In p (fst (filterProperties (with_prices f (Some (Fin P)) (Some (Fin P))) st)) <->
       In p (getAllProperties st) /\ local_match (with_prices f None None) p = true))
  /\ (In p (findAll (Some (with_prices f (Some (Fin P)) (Some (Fin P)))) db) <->
      In p db /\ price p = P
      /\ eval_where (buildWhereClause (Some (with_prices f None None))) p = true)
  /\ (In p (fst (filterProperties
                  (with_prices f (option_map Fin lo) (option_map Fin hi)) st)) <->
      In p (getAllProperties st)
      /\ (forall a, lo = Some a -> 0 < a -> a <= price p)
      /\ (forall b, hi = Some b -> 0 < b -> price p <= b)
      /\ local_match (with_prices f None None) p = true)
  /\ (In p (findAll (Some (with_prices f (option_map Fin lo) (option_map Fin hi))) db) <->
      In p db
      /\ (forall a, lo = Some a -> a <= price p)
      /\ (forall b, hi = Some b -> price p <= b)
      /\ eval_where (buildWhereClause (Some (with_prices f None None))) p = true).
Proof.
  refine (conj _ (conj _ (conj _ (conj _ _)))).
  - intros HP. rewrite local_prices_split.
    replace (0 <? P) with true by (symmetry; apply Z.ltb_lt; exact HP). tauto.
  - intros HP. rewrite local_prices_split.
    replace (0 <? P) with false by (symmetry; apply Z.ltb_ge; exact HP). tauto.
  - rewrite In_findAll, eval_where_prices. simpl.
    rewrite !andb_true_iff, Z.leb_le, Z.leb_le.
    split; intros H; decompose [and] H; repeat split; auto; lia.
  - rewrite In_filterProperties, local_match_prices, with_prices_twice.
    unfold minPrice_ok, maxPrice_ok. rewrite minPrice_with_prices, maxPrice_with_prices.
    rewrite !andb_true_iff, local_min_bound, local_max_bound. tauto.
  - rewrite In_findAll, eval_where_prices, !andb_true_iff, remote_min_bound,
      remote_max_bound. tauto.
Qed.

Lemma C6_witness :
  0 < 250000 /\
  (In casa_valencia (fst (filterProperties
        (with_prices PropertyFilters.empty (Some (Fin 250000)) (Some (Fin 250000)))
        (Saved [casa_valencia]))) <->
   In casa_valencia (getAllProperties (Saved [casa_valencia])) /\ price casa_valencia = 250000
   /\ local_match (with_prices PropertyFilters.empty None None) casa_valencia = true).
Proof.
  split; [lia|].
  apply (proj1 (equal_price_bounds PropertyFilters.empty 250000 None None
                  (Saved [casa_valencia]) [] casa_valencia)).
  lia.
Defined.

(** ** C7 *)

(** C7: [filterProperties] writes nothing: the storage item after the call
    is the one before it (same array, same order), and the result holds
    only listings read from it. *)
Theorem filterProperties_frame (f : PropertyFilters.t) (st : StorageItem) :
  snd (filterProperties f st) = st
  /\ getAllProperties (snd (filterProperties f st)) = getAllProperties st
  /\ incl (fst (filterProperties f st)) (getAllProperties st).
Proof.
  rewrite filterProperties_spec. simpl. split; [reflexivity|split; [reflexivity|]].
  intros p Hp. apply In_sort_desc, filter_In in Hp. apply Hp.
Qed.

(** ** Decoding and removing one parameter *)

Definition with_minBedrooms (f : PropertyFilters.t) (v : option num) : PropertyFilters.t :=
  PropertyFilters.mk (PropertyFilters.search f) (PropertyFilters.propertyType f)
    (PropertyFilters.operationType f) (PropertyFilters.minPrice f)
    (PropertyFilters.maxPrice f) v (PropertyFilters.city f).

Ltac query_keys :=
  repeat first
    [ rewrite query_remove_same
    | rewrite query_remove_other by discriminate ].

Lemma decode_remove_propertyType q :
  decode (remove_param "propertyType" q) = with_propertyType (decode q) None.
Proof. unfold decode, num_query, with_propertyType; simpl. query_keys. reflexivity. Qed.

Lemma decode_remove_operationType q :
  decode (remove_param "operationType" q) = with_operationType (decode q) None.
Proof. unfold decode, num_query, with_operationType; simpl. query_keys. reflexivity. Qed.

Lemma decode_remove_minPrice q :
  decode (remove_param "minPrice" q)
  = with_prices (decode q) None (PropertyFilters.maxPrice (decode q)).
Proof. unfold decode, num_query, with_prices; simpl. query_keys. reflexivity. Qed.

Lemma decode_remove_maxPrice q :
  decode (remove_param "maxPrice" q)
  = with_prices (decode q) (PropertyFilters.minPrice (decode q)) None.
Proof. unfold decode, num_query, with_prices; simpl. query_keys. reflexivity. Qed.

Lemma decode_remove_minBedrooms q :
  decode (remove_param "minBedrooms" q) = with_minBedrooms (decode q) None.
Proof. unfold decode, num_query, with_minBedrooms; simpl. query_keys. reflexivity. Qed.

Lemma with_propertyType_same f v :
  PropertyFilters.propertyType f = v -> with_propertyType f v = f.
Proof. destruct f; simpl; intros ->; reflexivity. Qed.

Lemma with_operationType_same f v :
  PropertyFilters.operationType f = v -> with_operationType f v = f.
Proof. destruct f; simpl; intros ->; reflexivity. Qed.

Lemma build_propertyType_empty f :
  buildWhereClause (Some (with_propertyType f (Some ""))) =
  buildWhereClause (Some (with_propertyType f None)).
Proof. destruct f; reflexivity. Qed.

Lemma build_operationType_empty f :
  buildWhereClause (Some (with_operationType f (Some ""))) =
  buildWhereClause (Some (with_operationType f None)).
Proof. destruct f; reflexivity. Qed.

Lemma list_empty_iff {A} (l : list A) : (forall x, ~ In x l) -> l = [].
Proof. destruct l as [|x r]; [reflexivity|]. intros H. exfalso. apply (H x). now left. Qed.

(** ** C2 *)

(** C2 (counterexample): [propertyType=invalid-enum-value] is not dropped:
    on a table holding one [casa] listing the request returns nothing,
    while the request without the parameter returns the listing. *)
Lemma C2_invalid_enum_filters_all :
  getAllProperties_ctrl [("propertyType", "invalid-enum-value")] [casa_valencia] = []
  /\ getAllProperties_ctrl [] [casa_valencia] = [casa_valencia].
Proof. split; vm_compute; reflexivity. Qed.

Lemma ctrl_propertyType_split q v db p :
  query "propertyType" q = Some v -> v <> "" ->
  (In p (getAllProperties_ctrl q db) <->
   In p (getAllProperties_ctrl (remove_param "propertyType" q) db) /\ propertyType p = v).
Proof.
  intros Hq Hv. unfold getAllProperties_ctrl.
  rewrite decode_remove_propertyType.
  rewrite <- (with_propertyType_same (decode q) (Some v)) at 1 by exact Hq.
  rewrite remote_propertyType_split by exact Hv. rewrite In_findAll. tauto.
Qed.

Lemma ctrl_operationType_split q v db p :
  query "operationType" q = Some v -> v <> "" ->
  (In p (getAllProperties_ctrl q db) <->
   In p (getAllProperties_ctrl (remove_param "operationType" q) db) /\ operationType p = v).
Proof.
  intros Hq Hv. unfold getAllProperties_ctrl.
  rewrite decode_remove_operationType.
  rewrite <- (with_operationType_same (decode q) (Some v)) at 1 by exact Hq.
  rewrite remote_operationType_split by exact Hv. rewrite In_findAll. tauto.
Qed.

(** C2 (amended): the decode step does not validate [propertyType] and
    [operationType] against the closed sets. The empty string is treated as
    absent; any other value [v] is kept and becomes an exact-equality
    constraint, so the result is the result without the parameter
    restricted to the listings whose field equals [v], which is empty for
    a [v] outside the closed set when every stored listing holds a value
    of the set. *)
Theorem enum_param_not_validated (q : ParamBag) (db : list Property) (p : Property) :
  (forall v, query "propertyType" q = Some v ->
     (v = "" -> getAllProperties_ctrl q db
                = getAllProperties_ctrl (remove_param "propertyType" q) db)
     /\ (v <> "" ->
         (In p (getAllProperties_ctrl q db) <->
          In p (getAllProperties_ctrl (remove_param "propertyType" q) db)
          /\ propertyType p = v))
     /\ (v <> "" -> ~ In v PROPERTY_TYPES ->
         Forall (fun r => In (propertyType r) PROPERTY_TYPES) db ->
         getAllProperties_ctrl q db = []))
  /\ (forall v, query "operationType" q = Some v ->
     (v = "" -> getAllProperties_ctrl q db
                = getAllProperties_ctrl (remove_param "operationType" q) db)
     /\ (v <> "" ->
         (In p (getAllProperties_ctrl q db) <->
          In p (getAllProperties_ctrl (remove_param "operationType" q) db)
          /\ operationType p = v))
     /\ (v <> "" -> ~ In v OPERATION_TYPES ->
         Forall (fun r => In (operationType r) OPERATION_TYPES) db ->
         getAllProperties_ctrl q db = [])).
Proof.
  split; intros v Hq; refine (conj _ (conj _ _)).
  - intros ->. unfold getAllProperties_ctrl, findAll.
    rewrite decode_remove_propertyType, <- build_propertyType_empty.
    now rewrite (with_propertyType_same (decode q) (Some "")) by exact Hq.
  - intros Hv. now apply ctrl_propertyType_split.
  - intros Hv Hout Hdb. apply list_empty_iff. intros r Hr.
    apply (ctrl_propertyType_split q v db r Hq Hv) in Hr as [Hr Heq].
    unfold getAllProperties_ctrl in Hr. apply In_findAll in Hr as [Hr _].
    rewrite Forall_forall in Hdb. apply Hout. rewrite <- Heq. now apply Hdb.
  - intros ->. unfold getAllProperties_ctrl, findAll.
    rewrite decode_remove_operationType, <- build_operationType_empty.
    now rewrite (with_operationType_same (decode q) (Some "")) by exact Hq.
  - intros Hv. now apply ctrl_operationType_split.
  - intros Hv Hout Hdb. apply list_empty_iff. intros r Hr.
    apply (ctrl_operationType_split q v db r Hq Hv) in Hr as [Hr Heq].
    unfold getAllProperties_ctrl in Hr. apply In_findAll in Hr as [Hr _].
    rewrite Forall_forall in Hdb. apply Hout. rewrite <- Heq. now apply Hdb.
Qed.

Lemma C2_witness :
  query "propertyType" [("propertyType", "invalid-enum-value")] = Some "invalid-enum-value"
  /\ "invalid-enum-value" <> ""
  /\ ~ In "invalid-enum-value" PROPERTY_TYPES
  /\ Forall (fun r => In (propertyType r) PROPERTY_TYPES) [casa_valencia]
  /\ getAllProperties_ctrl [("propertyType", "invalid-enum-value")] [casa_valencia] = [].
Proof.
  assert (Hq : query "propertyType" [("propertyType", "invalid-enum-value")]
               = Some "invalid-enum-value") by reflexivity.
  assert (Hv : "invalid-enum-value" <> "") by discriminate.
  assert (Hout : ~ In "invalid-enum-value" PROPERTY_TYPES)
    by (simpl; intuition discriminate).
  assert (Hdb : Forall (fun r => In (propertyType r) PROPERTY_TYPES) [casa_valencia])
    by (repeat constructor; simpl; auto).
  refine (conj Hq (conj Hv (conj Hout (conj Hdb _)))).
  exact (proj2 (proj2 (proj1 (enum_param_not_validated
           [("propertyType", "invalid-enum-value")] [casa_valencia] casa_valencia)
           "invalid-enum-value" Hq)) Hv Hout Hdb).
Defined.

(** ** C3 *)

(** C3 (counterexample): [minPrice=abc] is decoded as a [NaN] bound, not as
    an absent one, and the built [where] carries a price constraint that
    the request without the parameter does not have. *)
Lemma C3_nonnumeric_bound_kept :
  PropertyFilters.minPrice (decode [("minPrice", "abc")]) = Some NaN
  /\ PropertyFilters.minPrice (decode []) = None
  /\ Where.price (buildWhereClause (Some (decode [("minPrice", "abc")]))) = Some (Some NaN, None)
  /\ Where.price (buildWhereClause (Some (decode []))) = None.
Proof. repeat split; reflexivity. Qed.

Lemma num_query_some k q s :
  query k q = Some s -> s <> "" -> num_query k q = Some (Number s).
Proof.
  intros Hq Hs. unfold num_query. rewrite Hq.
  unfold truthy, or_empty. rewrite (proj2 (String.eqb_neq s "") Hs). reflexivity.
Qed.

Lemma num_query_empty k q : query k q = Some "" -> num_query k q = None.
Proof. intros Hq. unfold num_query. now rewrite Hq. Qed.

(** C3 (amended): a numeric parameter ([minPrice], [maxPrice],
    [minBedrooms]) given as the empty string is treated as absent (the
    decoded filters equal those of the request without it); any other
    string [s] is decoded as [Number(s)], which is [NaN] for a non-numeric
    [s], and kept as a bound of the [where] predicate. *)
Theorem numeric_param_decode (q : ParamBag) :
  (forall s, query "minPrice" q = Some s ->
     (s = "" -> decode q = decode (remove_param "minPrice" q))
     /\ (s <> "" -> PropertyFilters.minPrice (decode q) = Some (Number s)
         /\ Where.price (buildWhereClause (Some (decode q)))
            = Some (Some (Number s), PropertyFilters.maxPrice (decode q))))
  /\ (forall s, query "maxPrice" q = Some s ->
     (s = "" -> decode q = decode (remove_param "maxPrice" q))
     /\ (s <> "" -> PropertyFilters.maxPrice (decode q) = Some (Number s)
         /\ Where.price (buildWhereClause (Some (decode q)))
            = Some (PropertyFilters.minPrice (decode q), Some (Number s))))
  /\ (forall s, query "minBedrooms" q = Some s ->
     (s = "" -> decode q = decode (remove_param "minBedrooms" q))
     /\ (s <> "" -> PropertyFilters.minBedrooms (decode q) = Some (Number s)
         /\ Where.bedrooms (buildWhereClause (Some (decode q))) = Some (Number s))).
Proof.
  refine (conj _ (conj _ _)); intros s Hq; split.
  - intros ->. rewrite decode_remove_minPrice.
    assert (H : PropertyFilters.minPrice (decode q) = None) by now apply num_query_empty.
    revert H. destruct (decode q); simpl. intros ->. reflexivity.
  - intros Hs.
    assert (H : PropertyFilters.minPrice (decode q) = Some (Number s))
      by now apply num_query_some.
    split; [exact H|]. revert H. destruct (decode q); simpl. intros ->. reflexivity.
  - intros ->. rewrite decode_remove_maxPrice.
    assert (H : PropertyFilters.maxPrice (decode q) = None) by now apply num_query_empty.
    revert H. destruct (decode q); simpl. intros ->. reflexivity.
  - intros Hs.
    assert (H : PropertyFilters.maxPrice (decode q) = Some (Number s))
      by now apply num_query_some.
    split; [exact H|]. revert H. destruct (decode q) as [? ? ? [?|] ? ? ?]; simpl;
      intros ->; reflexivity.
  - intros ->. rewrite decode_remove_minBedrooms.
    assert (H : PropertyFilters.minBedrooms (decode q) = None) by now apply num_query_empty.
    revert H. destruct (decode q); simpl. intros ->. reflexivity.
  - intros Hs.
    assert (H : PropertyFilters.minBedrooms (decode q) = Some (Number s))
      by now apply num_query_some.
    split; [exact H|]. revert H. destruct (decode q); simpl. intros ->. reflexivity.
Qed.

Lemma C3_witness :
  query "minPrice" [("minPrice", "abc")] = Some "abc" /\ "abc" <> ""
  /\ PropertyFilters.minPrice (decode [("minPrice", "abc")]) = Some (Number "abc")
  /\ Where.price (buildWhereClause (Some (decode [("minPrice", "abc")])))
     = Some (Some (Number "abc"), PropertyFilters.maxPrice (decode [("minPrice", "abc")])).
Proof.
  assert (Hq : query "minPrice" [("minPrice", "abc")] = Some "abc") by reflexivity.
  assert (Hs : "abc" <> "") by discriminate.
  refine (conj Hq (conj Hs _)).
  exact (proj2 (proj1 (numeric_param_decode [("minPrice", "abc")]) "abc" Hq) Hs).
Defined.

(** ** C8 *)

Ltac encode_cases f :=
  let s := fresh "s" in let pt := fresh "pt" in let ot := fresh "ot" in
  let mn := fresh "mn" in let mx := fresh "mx" in let mb := fresh "mb" in
  let c := fresh "c" in
  destruct f as [s pt ot mn mx mb c]; unfold encode, append_if, num_param; simpl;
  destruct (truthy s), (truthy pt), (truthy ot), (truthy c), mn, mx, mb;
  simpl; reflexivity.

Lemma query_encode_search f :
  query "search" (encode (Some f)) =
  if truthy (PropertyFilters.search f) then Some (or_empty (PropertyFilters.search f)) else None.
Proof. encode_cases f. Qed.

Lemma query_encode_propertyType f :
  query "propertyType" (encode (Some f)) =
  if truthy (PropertyFilters.propertyType f)
  then Some (or_empty (PropertyFilters.propertyType f)) else None.
Proof. encode_cases f. Qed.

Lemma query_encode_operationType f :
  query "operationType" (encode (Some f)) =
  if truthy (PropertyFilters.operationType f)
  then Some (or_empty (PropertyFilters.operationType f)) else None.
Proof. encode_cases f. Qed.

Lemma query_encode_city f :
  query "city" (encode (Some f)) =
  if truthy (PropertyFilters.city f) then Some (or_empty (PropertyFilters.city f)) else None.
Proof. encode_cases f. Qed.

Lemma query_encode_minPrice f :
  query "minPrice" (encode (Some f)) = option_map num_String (PropertyFilters.minPrice f).
Proof. encode_cases f. Qed.

Lemma query_encode_maxPrice f :
  query "maxPrice" (encode (Some f)) = option_map num_String (PropertyFilters.maxPrice f).
Proof. encode_cases f. Qed.

Lemma query_encode_minBedrooms f :
  query "minBedrooms" (encode (Some f)) = option_map num_String (PropertyFilters.minBedrooms f).
Proof. encode_cases f. Qed.

Lemma num_String_eqb_empty x : String.eqb (num_String x) "" = false.
Proof. apply String.eqb_neq, num_String_nonempty. Qed.

Lemma closed_set_nonempty v l :
  (l = PROPERTY_TYPES \/ l = OPERATION_TYPES) -> In v l -> String.eqb v "" = false.
Proof.
  intros [-> | ->] H; simpl in H; intuition (subst; reflexivity).
Qed.

(** C8 (counterexample): [search = ""] is a set field that the encoder
    omits, so the decoded filters have [search] unset. *)
Lemma C8_empty_search_lost :
  encode (Some (only_search "")) = []
  /\ decode (encode (Some (only_search ""))) <> only_search "".
Proof. split; [reflexivity | discriminate]. Qed.

Lemma truthy_or_empty o : truthy o = true -> or_empty o <> "".
Proof.
  destruct o as [v|]; simpl; [|discriminate].
  intros H E. subst v. discriminate H.
Qed.

Lemma append_if_sparse b k v q :
  Forall (fun kv => snd kv <> "") q -> (b = true -> v <> "") ->
  Forall (fun kv => snd kv <> "") (append_if b k v q).
Proof.
  intros Hq Hv. unfold append_if. destruct b; [|exact Hq].
  apply Forall_app. split; [exact Hq|]. constructor; [now apply Hv | constructor].
Qed.

Lemma num_param_sparse k o q :
  Forall (fun kv => snd kv <> "") q -> Forall (fun kv => snd kv <> "") (num_param k o q).
Proof.
  intros Hq. unfold num_param. destruct o as [x|]; [|exact Hq].
  apply Forall_app. split; [exact Hq|]. constructor; [apply num_String_nonempty | constructor].
Qed.

Lemma encode_sparse f : Forall (fun kv => snd kv <> "") (encode f).
Proof.
  destruct f as [f|]; [|constructor].
  unfold encode.
  repeat first [ apply append_if_sparse; [|apply truthy_or_empty]
               | apply num_param_sparse ].
  constructor.
Qed.

Lemma encode_keys f :
  Forall (fun kv => In (fst kv) filter_keys) (encode f).
Proof.
  destruct f as [f|]; [|constructor].
  unfold encode, append_if, num_param.
  repeat match goal with
  | |- Forall _ (if ?b then _ else _) => destruct b
  | |- Forall _ (match ?o with Some _ => _ | None => _ end) => destruct o
  | |- Forall _ (_ ++ _)%list => apply Forall_app; split
  | |- Forall _ [] => constructor
  | |- Forall _ [_] => constructor; [simpl; tauto | constructor]
  end.
Qed.

Lemma truthy_self (o : option string) :
  (if truthy o then Some (or_empty o) else None) = (if truthy o then o else None).
Proof. destruct o; reflexivity. Qed.

(** C8 (amended): every key of the encoded bag is a field of
    [PropertyFilters] and no value is empty; a text or enum field is
    emitted, with its value, exactly when it is set and non-empty, a
    numeric one exactly when it is set, as [String(x)]. An empty [search]
    or [city] is encoded as absent and decodes to unset. Decoding the bag
    gives back the filters when their enum fields hold values of the
    closed sets and [search] and [city], when set, are non-empty. *)
Theorem encode_decode_roundtrip (f : PropertyFilters.t) :
  Forall (fun kv => In (fst kv) filter_keys /\ snd kv <> "") (encode (Some f))
  /\ query "search" (encode (Some f))
     = (if truthy (PropertyFilters.search f) then PropertyFilters.search f else None)
  /\ query "propertyType" (encode (Some f))
     = (if truthy (PropertyFilters.propertyType f) then PropertyFilters.propertyType f
        else None)
  /\ query "operationType" (encode (Some f))
     = (if truthy (PropertyFilters.operationType f) then PropertyFilters.operationType f
        else None)
  /\ query "city" (encode (Some f))
     = (if truthy (PropertyFilters.city f) then PropertyFilters.city f else None)
  /\ query "minPrice" (encode (Some f)) = option_map num_String (PropertyFilters.minPrice f)
  /\ query "maxPrice" (encode (Some f)) = option_map num_String (PropertyFilters.maxPrice f)
  /\ query "minBedrooms" (encode (Some f))
     = option_map num_String (PropertyFilters.minBedrooms f)
  /\ (PropertyFilters.search f = Some "" ->
      query "search" (encode (Some f)) = None
      /\ PropertyFilters.search (decode (encode (Some f))) = None)
  /\ (PropertyFilters.city f = Some "" ->
      query "city" (encode (Some f)) = None
      /\ PropertyFilters.city (decode (encode (Some f))) = None)
  /\ ((forall v, PropertyFilters.propertyType f = Some v -> In v PROPERTY_TYPES) ->
      (forall v, PropertyFilters.operationType f = Some v -> In v OPERATION_TYPES) ->
      PropertyFilters.search f <> Some "" ->
      PropertyFilters.city f <> Some "" ->
      decode (encode (Some f)) = f).
Proof.
  split.
  { apply Forall_and; [apply encode_keys | apply encode_sparse]. }
  rewrite <- !truthy_self, query_encode_search, query_encode_propertyType,
    query_encode_operationType, query_encode_city, query_encode_minPrice,
    query_encode_maxPrice, query_encode_minBedrooms.
  do 7 (split; [reflexivity|]).
  split.
  { intros Hs. change (PropertyFilters.search (decode ?q)) with (query "search" q).
    rewrite query_encode_search, Hs. split; reflexivity. }
  split.
  { intros Hc. change (PropertyFilters.city (decode ?q)) with (query "city" q).
    rewrite query_encode_city, Hc. split; reflexivity. }
  intros Hpt Hot Hs Hc.
  destruct f as [s pt ot mn mx mb c]; simpl in *.
  assert (Es : forall v, s = Some v -> String.eqb v "" = false)
    by (intros v ->; apply String.eqb_neq; congruence).
  assert (Ec : forall v, c = Some v -> String.eqb v "" = false)
    by (intros v ->; apply String.eqb_neq; congruence).
  assert (Ept : forall v, pt = Some v -> String.eqb v "" = false)
    by (intros v Hv; apply (closed_set_nonempty v PROPERTY_TYPES);
        [left; reflexivity | exact (Hpt v Hv)]).
  assert (Eot : forall v, ot = Some v -> String.eqb v "" = false)
    by (intros v Hv; apply (closed_set_nonempty v OPERATION_TYPES);
        [right; reflexivity | exact (Hot v Hv)]).
  clear Hpt Hot Hs Hc.
  destruct s as [s|], pt as [pt|], ot as [ot|], mn as [mn|], mx as [mx|], mb as [mb|],
    c as [c|];
  unfold encode, decode, num_query, append_if, num_param, truthy, or_empty;
  rewrite ?(Es _ eq_refl), ?(Ec _ eq_refl), ?(Ept _ eq_refl), ?(Eot _ eq_refl);
  simpl;
  rewrite ?num_String_eqb_empty; simpl; rewrite ?Number_num_String; reflexivity.
Qed.

Definition sample_filters : PropertyFilters.t :=
  PropertyFilters.mk (Some "mar") (Some "casa") (Some "venta") (Some (Fin 100000))
    (Some (Fin 300000)) (Some (Fin 2)) (Some "Valencia").

Lemma C8_witness :
  (forall v, PropertyFilters.propertyType sample_filters = Some v -> In v PROPERTY_TYPES)
  /\ (forall v, PropertyFilters.operationType sample_filters = Some v -> In v OPERATION_TYPES)
  /\ PropertyFilters.search sample_filters <> Some ""
  /\ PropertyFilters.city sample_filters <> Some ""
  /\ decode (encode (Some sample_filters)) = sample_filters
  /\ PropertyFilters.search (only_search "") = Some ""
  /\ PropertyFilters.search (decode (encode (Some (only_search "")))) = None.
Proof.
  assert (Hpt : forall v, PropertyFilters.propertyType sample_filters = Some v ->
                          In v PROPERTY_TYPES)
    by (simpl; intros v [= <-]; simpl; auto).
  assert (Hot : forall v, PropertyFilters.operationType sample_filters = Some v ->
                          In v OPERATION_TYPES)
    by (simpl; intros v [= <-]; simpl; auto).
  assert (Hs : PropertyFilters.search sample_filters <> Some "") by discriminate.
  assert (Hc : PropertyFilters.city sample_filters <> Some "") by discriminate.
  assert (He : PropertyFilters.search (only_search "") = Some "") by reflexivity.
  destruct (encode_decode_roundtrip sample_filters)
    as (_ & _ & _ & _ & _ & _ & _ & _ & _ & _ & R).
  destruct (encode_decode_roundtrip (only_search ""))
    as (_ & _ & _ & _ & _ & _ & _ & _ & E & _ & _).
  refine (conj Hpt (conj Hot (conj Hs (conj Hc (conj (R Hpt Hot Hs Hc) (conj He _)))))).
  exact (proj2 (E He)).
Defined.

(** ** C9 *)

Definition sample_input : CreatePropertyInput :=
  mkInput "Piso luminoso en el centro" "Piso reformado, exterior, con ascensor y calefaccion"
    "apartamento" "alquiler" 1200 "Calle Colon 5, 2B" "Valencia" 2 1 75 ["ascensor"] [].

Definition no_change : PartialInput :=
  mkPartial None None None None None None None None None None None None.

(** C9 (counterexample): [createProperty] reads the clock twice, so when
    the clock ticks between the two reads [createdAt <> updatedAt]; and
    when the wall clock is set back between a create and an update, the
    update leaves [updatedAt < createdAt]. *)
Lemma C9_two_clock_reads :
  (exists np st', createProperty (fun _ => true) sample_input "p9" 1000 1001 Missing = Ret np st'
                  /\ createdAt np <> updatedAt np)
  /\ Exists (fun p => updatedAt p < createdAt p)
       (getAllProperties (run (fun _ => true)
          [OpCreate sample_input "p9" 1000 1000; OpUpdate "p9" no_change 999] Missing)).
Proof.
  split.
  - eexists _, _. split; [reflexivity | discriminate].
  - vm_compute. constructor. reflexivity.
Qed.

Lemma timestamps_ok_mono now now' st :
  now <= now' -> timestamps_ok now st -> timestamps_ok now' st.
Proof.
  intros Hle H. unfold timestamps_ok in *.
  eapply Forall_impl; [|exact H]. intros p [H1 H2]. split; lia.
Qed.

Lemma Forall_set_nth {A} (P : A -> Prop) n v l :
  Forall P l -> P v -> Forall P (set_nth n v l).
Proof.
  revert n. induction l as [|x r IH]; intros n Hl Hv; [destruct n; constructor|].
  inversion Hl; subst. destruct n; simpl; constructor; auto.
Qed.

Lemma Forall_filter_sub {A} (P : A -> Prop) (g : A -> bool) l :
  Forall P l -> Forall P (filter g l).
Proof.
  rewrite !Forall_forall. intros H x Hx. apply filter_In in Hx. apply H, Hx.
Qed.

Section Timestamps.
Variable setItem_ok : list Property -> bool.

Lemma create_fields input newId t1 t2 st np st' :
  createProperty setItem_ok input newId t1 t2 st = Ret np st' ->
  id np = newId /\ createdAt np = t1 /\ updatedAt np = t2.
Proof.
  unfold createProperty, saveProperties.
  destruct (setItem_ok _); intros H; inversion H; subst; simpl; auto.
Qed.

Lemma update_fields i input t st np st' :
  updateProperty setItem_ok i input t st = Ret (Some np) st' ->
  exists old, In old (getAllProperties st) /\ id old = i
              /\ id np = id old /\ createdAt np = createdAt old /\ updatedAt np = t.
Proof.
  unfold updateProperty, saveProperties.
  destruct (findIndex (fun p => String.eqb (id p) i) (getAllProperties st)) as [n|] eqn:Hf;
    [|intros H; discriminate H].
  destruct (nth_error (getAllProperties st) n) as [old|] eqn:Hn; [|intros H; discriminate H].
  destruct (setItem_ok _); intros H; inversion H; subst.
  exists old. repeat split; auto.
  - eapply nth_error_In; eauto.
  - clear H. revert n Hf Hn. induction (getAllProperties st) as [|x r IH]; intros n Hf Hn;
      [discriminate Hf|].
    simpl in Hf. destruct (String.eqb_spec (id x) i) as [E|E].
    + inversion Hf; subst. simpl in Hn. inversion Hn; subst. congruence.
    + destruct (findIndex _ r) as [m|] eqn:Hm; [|discriminate Hf].
      simpl in Hf. inversion Hf; subst. simpl in Hn. eapply IH; eauto.
Qed.

Lemma exec_timestamps o now st :
  timestamps_ok now st -> clock_ok now [o] ->
  timestamps_ok (match o with
                 | OpCreate _ _ _ t2 => t2
                 | OpUpdate _ _ t => t
                 | OpDelete _ => now
                 end) (exec setItem_ok o st).
Proof.
  intros Hinv Hclk. destruct o as [input newId t1 t2 | i input t | i]; simpl in Hclk.
  - destruct Hclk as (H1 & H2 & _).
    unfold exec, createProperty, saveProperties.
    destruct (setItem_ok _); simpl.
    + unfold timestamps_ok; simpl. apply Forall_app. split.
      * eapply Forall_impl; [|exact Hinv]. intros p [A B]; split; lia.
      * constructor; [simpl; split; lia | constructor].
    + eapply timestamps_ok_mono; [|exact Hinv]. lia.
  - destruct Hclk as (H1 & _).
    unfold exec, updateProperty, saveProperties.
    destruct (findIndex _ _) as [n|]; simpl;
      [|eapply timestamps_ok_mono; [|exact Hinv]; lia].
    destruct (nth_error (getAllProperties st) n) as [old|] eqn:Hn; simpl;
      [|eapply timestamps_ok_mono; [|exact Hinv]; lia].
    destruct (setItem_ok _); simpl; [|eapply timestamps_ok_mono; [|exact Hinv]; lia].
    unfold timestamps_ok; simpl.
    assert (Hold : createdAt old <= now).
    { unfold timestamps_ok in Hinv. rewrite Forall_forall in Hinv.
      apply Hinv. eapply nth_error_In; eauto. }
    apply Forall_set_nth.
    + eapply Forall_impl; [|exact Hinv]. intros p [A B]; split; lia.
    + simpl. split; lia.
  - unfold exec, deleteProperty, saveProperties.
    destruct (length _ =? length _)%nat; simpl; [exact Hinv|].
    destruct (setItem_ok _); simpl; [|exact Hinv].
    unfold timestamps_ok; simpl. apply Forall_filter_sub. exact Hinv.
Qed.

Lemma run_timestamps ops now st :
  timestamps_ok now st -> clock_ok now ops ->
  Forall (fun p => createdAt p <= updatedAt p) (getAllProperties (run setItem_ok ops st)).
Proof.
  revert now st. induction ops as [|o r IH]; intros now st Hinv Hclk; simpl.
  - eapply Forall_impl; [|exact Hinv]. intros p [A _]. exact A.
  - assert (Ho : clock_ok now [o]).
    { destruct o; simpl in *; intuition. }
    pose proof (exec_timestamps o now st Hinv Ho) as Hs.
    eapply IH; [exact Hs|].
    destruct o; simpl in Hclk |- *; intuition.
Qed.

End Timestamps.

(** C9 (amended): [createProperty] sets [createdAt] and [updatedAt] from
    two successive clock readings [t1] and [t2]; [updateProperty] keeps
    the [id] and [createdAt] of the stored listing and sets [updatedAt] to
    its clock reading; so, as long as the clock never goes backwards
    ([clock_ok]) and the stored listings start with [createdAt <=
    updatedAt] and [createdAt] not after the current time, every listing
    has [createdAt <= updatedAt] after any sequence of creates, updates and
    deletes. *)
Theorem write_ops_timestamps (setItem_ok : list Property -> bool) :
  (forall input newId t1 t2 st np st',
     createProperty setItem_ok input newId t1 t2 st = Ret np st' ->
     id np = newId /\ createdAt np = t1 /\ updatedAt np = t2)
  /\ (forall i input t st np st',
       updateProperty setItem_ok i input t st = Ret (Some np) st' ->
       exists old, In old (getAllProperties st) /\ id old = i
                   /\ id np = id old /\ createdAt np = createdAt old /\ updatedAt np = t)
  /\ (forall ops now st,
       timestamps_ok now st -> clock_ok now ops ->
       Forall (fun p => createdAt p <= updatedAt p)
              (getAllProperties (run setItem_ok ops st))).
Proof.
  refine (conj _ (conj _ _)).
  - intros. eapply create_fields; eauto.
  - intros. eapply update_fields; eauto.
  - intros. eapply run_timestamps; eauto.
Qed.

Lemma C9_witness :
  timestamps_ok 0 Missing
  /\ clock_ok 0 [OpCreate sample_input "p9" 1000 1001; OpUpdate "p9" no_change 1005]
  /\ Forall (fun p => createdAt p <= updatedAt p)
       (getAllProperties (run (fun _ => true)
          [OpCreate sample_input "p9" 1000 1001; OpUpdate "p9" no_change 1005] Missing)).
Proof.
  assert (Hi : timestamps_ok 0 Missing) by constructor.
  assert (Hc : clock_ok 0 [OpCreate sample_input "p9" 1000 1001; OpUpdate "p9" no_change 1005])
    by (simpl; lia).
  refine (conj Hi (conj Hc _)).
  exact (proj2 (proj2 (write_ops_timestamps (fun _ => true))) _ 0 Missing Hi Hc).
Defined.

(** ** C10 *)

Lemma filter_length_le {A} (g : A -> bool) l : (length (filter g l) <= length l)%nat.
Proof. induction l as [|x r IH]; simpl; [lia|]. destruct (g x); simpl; lia. Qed.

Lemma filter_length_eq {A} (g : A -> bool) l :
  length (filter g l) = length l <-> (forall x, In x l -> g x = true).
Proof.
  induction l as [|x r IH]; simpl; [split; [intros _ x []|reflexivity]|].
  destruct (g x) eqn:Hx; simpl.
  - split.
    + intros H y [<-|Hy]; [exact Hx|]. apply IH; [lia|exact Hy].
    + intros H. f_equal. apply IH. intros y Hy. apply H. now right.
  - split.
    + intros H. pose proof (filter_length_le g r). lia.
    + intros H. specialize (H x (or_introl eq_refl)). congruence.
Qed.

Lemma some_id_iff i l :
  (exists p, In p l /\ id p = i) <->
  ~ (forall x, In x l -> negb (String.eqb (id x) i) = true).
Proof.
  split.
  - intros [p [Hp Hi]] H. specialize (H p Hp). subst i.
    rewrite String.eqb_refl in H. discriminate H.
  - intros H. induction l as [|x r IH]; [exfalso; apply H; intros x []|].
    destruct (String.eqb_spec (id x) i) as [E|E].
    + exists x. split; [now left | exact E].
    + destruct IH as [p [Hp Hi]].
      * intros Hall. apply H. intros y [<-|Hy]; [now apply negb_true_iff, String.eqb_neq|].
        now apply Hall.
      * exists p. split; [now right | exact Hi].
Qed.

(** C10: [deleteProperty i] returns [true] iff a listing with id [i] is
    stored; then exactly the listings with that id are removed and the
    others stay in order; when it returns [false] the storage is not
    touched; it can only throw (from a refused write, leaving the storage
    as it was) when such a listing exists. The repository [delete] behaves
    the same on the table. *)
Theorem deleteProperty_spec (setItem_ok : list Property -> bool) (i : string)
  (st : StorageItem) (db : list Property) :
  (match deleteProperty setItem_ok i st with
   | Ret b st' =>
       (b = true <-> exists p, In p (getAllProperties st) /\ id p = i)
       /\ (b = true -> st' = Saved (filter (fun p => negb (String.eqb (id p) i))
                                          (getAllProperties st)))
       /\ (b = false -> st' = st)
   | Throw st' => st' = st /\ exists p, In p (getAllProperties st) /\ id p = i
   end)
  /\ (fst (repo_delete i db) = true <-> exists p, In p db /\ id p = i)
  /\ (fst (repo_delete i db) = true ->
      snd (repo_delete i db) = filter (fun p => negb (String.eqb (id p) i)) db)
  /\ (fst (repo_delete i db) = false -> snd (repo_delete i db) = db).
Proof.
  refine (conj _ _).
  - unfold deleteProperty, saveProperties.
    set (kept := filter (fun p => negb (String.eqb (id p) i)) (getAllProperties st)).
    assert (Hex : (exists p, In p (getAllProperties st) /\ id p = i) <->
                  length kept <> length (getAllProperties st)).
    { rewrite some_id_iff. unfold kept. rewrite filter_length_eq. tauto. }
    destruct (Nat.eqb_spec (length kept) (length (getAllProperties st))) as [E|E].
    + split; [|split; [discriminate | reflexivity]].
      split; [discriminate|]. intros H. exfalso. apply Hex in H. exact (H E).
    + destruct (setItem_ok kept).
      * split; [|split; [reflexivity | discriminate]].
        split; [intros _ | reflexivity]. apply Hex. exact E.
      * split; [reflexivity|]. apply Hex. exact E.
  - unfold repo_delete.
    destruct (find (fun p => String.eqb (id p) i) db) as [x|] eqn:Hf; simpl.
    + apply find_some in Hf as [Hx Hi]. apply String.eqb_eq in Hi.
      split; [split; [intros _; exists x; split; assumption | reflexivity]|].
      split; [reflexivity | discriminate].
    + split; [split; [discriminate|] | split; [discriminate | reflexivity]].
      intros [p [Hp Hi]]. apply (find_none _ _ Hf) in Hp.
      rewrite Hi, String.eqb_refl in Hp. discriminate Hp.
Qed.

Lemma C10_witness :
  (match deleteProperty (fun _ => true) "p1" (Saved [casa_valencia]) with
   | Ret b st' =>
       (b = true <-> exists p, In p (getAllProperties (Saved [casa_valencia])) /\ id p = "p1")
       /\ (b = true -> st' = Saved (filter (fun p => negb (String.eqb (id p) "p1"))
                                          (getAllProperties (Saved [casa_valencia]))))
       /\ (b = false -> st' = Saved [casa_valencia])
   | Throw st' => st' = Saved [casa_valencia]
                  /\ exists p, In p (getAllProperties (Saved [casa_valencia])) /\ id p = "p1"
   end)
  /\ (fst (repo_delete "p1" [casa_valencia]) = true <->
      exists p, In p [casa_valencia] /\ id p = "p1").
Proof.
  pose proof (deleteProperty_spec (fun _ => true) "p1" (Saved [casa_valencia])
                [casa_valencia]) as H.
  exact (conj (proj1 H) (proj1 (proj2 H))).
Defined.

(* ================================================================== *)
(** * Further properties of the code *)

(** ** Lookup helpers *)

Lemma find_app {A} (g : A -> bool) l1 l2 :
  find g (l1 ++ l2) = match find g l1 with Some x => Some x | None => find g l2 end.
Proof. induction l1 as [|x r IH]; simpl; [reflexivity|]. destruct (g x); [reflexivity|exact IH]. Qed.

Lemma findIndex_some {A} (g : A -> bool) l n :
  findIndex g l = Some n -> exists x, nth_error l n = Some x /\ g x = true /\ find g l = Some x.
Proof.
  revert n. induction l as [|y r IH]; intros n H; simpl in H; [discriminate H|].
  simpl. destruct (g y) eqn:Gy.
  - inversion H; subst. exists y. auto.
  - destruct (findIndex g r) as [m|] eqn:Hm; simpl in H; [|discriminate H].
    inversion H; subst. apply IH. reflexivity.
Qed.

Lemma findIndex_none {A} (g : A -> bool) l : findIndex g l = None -> find g l = None.
Proof.
  induction l as [|y r IH]; simpl; [reflexivity|].
  destruct (g y); [discriminate|]. destruct (findIndex g r); [discriminate|]. auto.
Qed.

Lemma find_set_nth_first {A} (g : A -> bool) l n v :
  findIndex g l = Some n -> g v = true -> find g (set_nth n v l) = Some v.
Proof.
  revert n. induction l as [|y r IH]; intros n H Hv; simpl in H; [discriminate H|].
  destruct (g y) eqn:Gy.
  - inversion H; subst. simpl. rewrite Hv. reflexivity.
  - destruct (findIndex g r) as [m|] eqn:Hm; simpl in H; [|discriminate H].
    inversion H; subst. simpl. rewrite Gy. apply IH; auto.
Qed.

Lemma find_set_nth_other {A} (g : A -> bool) l n x v :
  nth_error l n = Some x -> g x = false -> g v = false -> find g (set_nth n v l) = find g l.
Proof.
  revert n. induction l as [|y r IH]; intros n Hn Hx Hv; [destruct n; reflexivity|].
  destruct n as [|n]; simpl in Hn |- *.
  - inversion Hn; subst. rewrite Hx, Hv. reflexivity.
  - destruct (g y); [reflexivity|]. apply IH; auto.
Qed.

Lemma map_set_nth {A B} (f : A -> B) l n x v :
  nth_error l n = Some x -> f v = f x -> map f (set_nth n v l) = map f l.
Proof.
  revert n. induction l as [|y r IH]; intros n Hn Hv; [destruct n; reflexivity|].
  destruct n as [|n]; simpl in Hn |- *.
  - inversion Hn; subst. rewrite Hv. reflexivity.
  - f_equal. apply IH; auto.
Qed.

Lemma find_filter_sub {A} (g h : A -> bool) l :
  (forall x, g x = true -> h x = true) -> find g (filter h l) = find g l.
Proof.
  intros H. induction l as [|y r IH]; simpl; [reflexivity|].
  destruct (h y) eqn:Hy; simpl.
  - destruct (g y); [reflexivity | exact IH].
  - destruct (g y) eqn:Gy; [rewrite (H y Gy) in Hy; discriminate Hy | exact IH].
Qed.

Lemma find_filter_none {A} (g : A -> bool) l :
  find g (filter (fun x => negb (g x)) l) = None.
Proof.
  induction l as [|y r IH]; simpl; [reflexivity|].
  destruct (g y) eqn:Gy; simpl; [exact IH|]. rewrite Gy. exact IH.
Qed.

Lemma find_none_all {A} (g : A -> bool) l :
  (forall x, In x l -> negb (g x) = true) -> find g l = None.
Proof.
  intros H. induction l as [|y r IH]; simpl; [reflexivity|].
  pose proof (H y (or_introl eq_refl)) as Hy. destruct (g y); [discriminate Hy|].
  apply IH. intros x Hx. apply H. now right.
Qed.

(** ** Local CRUD and [getPropertyById] *)

(** After a successful [createProperty], the stored array is the array read
    before (empty when the item was missing or corrupt) with the new listing
    appended, and [getPropertyById newId] returns it unless a listing with
    that id was already stored, which then shadows it; a refused write leaves
    the storage item as it was. *)
Theorem createProperty_getPropertyById (setItem_ok : list Property -> bool)
  (input : CreatePropertyInput) (newId : string) (t1 t2 : Z) (st : StorageItem) :
  match createProperty setItem_ok input newId t1 t2 st with
  | Ret np st' =>
      getAllProperties st' = (getAllProperties st ++ [np])%list
      /\ getPropertyById newId st' =
         match getPropertyById newId st with Some q => Some q | None => Some np end
  | Throw st' => st' = st
  end.
Proof.
  unfold createProperty, saveProperties.
  destruct (setItem_ok _); [|reflexivity].
  split; [reflexivity|].
  unfold getPropertyById; simpl. rewrite find_app. simpl. rewrite String.eqb_refl.
  reflexivity.
Qed.

(** [updateProperty i]: when no listing has id [i] it returns [null] and
    writes nothing (even over a corrupt item); otherwise the first listing
    with id [i] becomes [merge old input t], which [getPropertyById i]
    returns afterwards, while the ids of the array, in order, and the
    lookup of every other id are unchanged; a refused write throws and
    leaves the storage as it was. *)
Theorem updateProperty_getPropertyById (setItem_ok : list Property -> bool) (i : string)
  (input : PartialInput) (t : Z) (st : StorageItem) :
  match updateProperty setItem_ok i input t st with
  | Ret None st' => st' = st /\ getPropertyById i st = None
  | Ret (Some np) st' =>
      exists old, getPropertyById i st = Some old /\ np = merge old input t
      /\ getPropertyById i st' = Some np
      /\ map id (getAllProperties st') = map id (getAllProperties st)
      /\ (forall j, j <> i -> getPropertyById j st' = getPropertyById j st)
  | Throw st' => st' = st /\ getPropertyById i st <> None
  end.
Proof.
  unfold updateProperty, saveProperties, getPropertyById.
  destruct (findIndex (fun p => String.eqb (id p) i) (getAllProperties st)) as [n|] eqn:Hf.
  - destruct (findIndex_some _ _ _ Hf) as (x & Hn & Hx & Hfind).
    rewrite Hn.
    destruct (setItem_ok _); [|split; [reflexivity | congruence]].
    exists x. split; [exact Hfind|]. split; [reflexivity|].
    apply String.eqb_eq in Hx.
    simpl. split; [|split].
    + apply find_set_nth_first; [exact Hf|]. simpl. now apply String.eqb_eq.
    + apply (map_set_nth _ _ _ x); [exact Hn | reflexivity].
    + intros j Hj. apply (find_set_nth_other _ _ _ x); [exact Hn | |];
        simpl; apply String.eqb_neq; congruence.
  - split; [reflexivity|]. now apply findIndex_none.
Qed.

(** After [deleteProperty i] returns (true or false), [getPropertyById i]
    finds nothing and the lookup of every other id is unchanged; a refused
    write throws and leaves the storage as it was. *)
Theorem deleteProperty_getPropertyById (setItem_ok : list Property -> bool) (i : string)
  (st : StorageItem) :
  match deleteProperty setItem_ok i st with
  | Ret _ st' =>
      getPropertyById i st' = None
      /\ forall j, j <> i -> getPropertyById j st' = getPropertyById j st
  | Throw st' => st' = st
  end.
Proof.
  unfold deleteProperty, saveProperties, getPropertyById.
  set (kept := filter (fun p => negb (String.eqb (id p) i)) (getAllProperties st)).
  destruct (Nat.eqb_spec (length kept) (length (getAllProperties st))) as [E|E].
  - split; [|reflexivity]. apply find_none_all. apply filter_length_eq. exact E.
  - destruct (setItem_ok kept); [|reflexivity]. simpl. split.
    + apply (find_filter_none (fun p => String.eqb (id p) i)).
    + intros j Hj. apply find_filter_sub. intros x Hx.
      apply String.eqb_eq in Hx. apply negb_true_iff, String.eqb_neq. congruence.
Qed.

(** ** Chaining local filters *)

Lemma insert_desc_head x l :
  (forall z, In z l -> createdAt z <= createdAt x) -> insert_desc x l = x :: l.
Proof.
  destruct l as [|y ys]; intros H; simpl; [reflexivity|].
  specialize (H y (or_introl eq_refl)). apply Z.leb_le in H. now rewrite H.
Qed.

Lemma sorted_strongly l : Sorted newest_first l -> StronglySorted newest_first l.
Proof.
  apply Sorted_StronglySorted. intros a b c H1 H2. unfold newest_first in *. lia.
Qed.

Lemma filter_insert_desc (g : Property -> bool) x l :
  StronglySorted newest_first l ->
  filter g (insert_desc x l) = if g x then insert_desc x (filter g l) else filter g l.
Proof.
  induction 1 as [|y ys Hs IH Hall]; simpl.
  - destruct (g x); reflexivity.
  - rewrite Forall_forall in Hall. unfold newest_first in Hall.
    destruct (createdAt y <=? createdAt x) eqn:Hyx.
    + apply Z.leb_le in Hyx. simpl.
      destruct (g x); [|reflexivity].
      symmetry. apply insert_desc_head. intros z Hz.
      assert (Hz' : In z (y :: ys)).
      { destruct (g y); [destruct Hz as [<-|Hz]; [now left|]|];
          right; apply filter_In in Hz; apply Hz. }
      destruct Hz' as [<-|Hz']; [exact Hyx|].
      specialize (Hall z Hz'). lia.
    + simpl. rewrite IH.
      destruct (g y) eqn:Gy, (g x) eqn:Gx; simpl; try reflexivity.
      rewrite Hyx. reflexivity.
Qed.

Lemma filter_sort_desc (g : Property -> bool) l :
  filter g (sort_desc l) = sort_desc (filter g l).
Proof.
  induction l as [|x r IH]; simpl; [reflexivity|].
  rewrite filter_insert_desc by apply sorted_strongly, sort_desc_sorted.
  rewrite IH. destruct (g x); reflexivity.
Qed.

Lemma sort_desc_sorted_id l : StronglySorted newest_first l -> sort_desc l = l.
Proof.
  induction 1 as [|x r Hs IH Hall]; simpl; [reflexivity|].
  rewrite IH. apply insert_desc_head. rewrite Forall_forall in Hall. exact Hall.
Qed.

(** Running [filterProperties f2] over a storage that holds the result of
    [filterProperties f1] gives the stored listings matching both [f1] and
    [f2], newest first; in particular filtering a result again with the
    same filters changes nothing. *)
Theorem filterProperties_chain (f1 f2 : PropertyFilters.t) (st : StorageItem) :
  fst (filterProperties f2 (Saved (fst (filterProperties f1 st))))
  = sort_desc (filter (fun p => local_match f1 p && local_match f2 p) (getAllProperties st))
  /\ fst (filterProperties f1 (Saved (fst (filterProperties f1 st))))
     = fst (filterProperties f1 st).
Proof.
  rewrite !filterProperties_spec; simpl.
  rewrite !filter_sort_desc, !filter_filter_and.
  rewrite !(sort_desc_sorted_id (sort_desc _)) by apply sorted_strongly, sort_desc_sorted.
  split; [reflexivity|].
  f_equal. apply filter_ext. intros p. apply andb_diag.
Qed.

(** ** Remote filtering through the query string *)

Lemma truthy_eq_active o : truthy o = active_str o.
Proof. reflexivity. Qed.

Lemma num_query_encoded k q o :
  query k q = option_map num_String o -> num_query k q = o.
Proof.
  intros H. unfold num_query. rewrite H. destruct o as [x|]; [|reflexivity].
  cbn [option_map]. rewrite truthy_num_String. cbn [or_empty].
  now rewrite Number_num_String.
Qed.

(** The server rebuilds from the query string the [where] clause the
    filters themselves give. *)
Lemma build_decode_encode f :
  buildWhereClause (Some (decode (encode (Some f)))) = buildWhereClause (Some f).
Proof.
  unfold decode.
  rewrite query_encode_search, query_encode_propertyType, query_encode_operationType,
    query_encode_city.
  rewrite (num_query_encoded _ _ _ (query_encode_minPrice f)),
    (num_query_encoded _ _ _ (query_encode_maxPrice f)),
    (num_query_encoded _ _ _ (query_encode_minBedrooms f)).
  destruct f as [s pt ot mn mx mb c]; simpl.
  unfold buildWhereClause; simpl.
  destruct s as [s|]; [destruct (String.eqb s "") eqn:Es|];
  destruct pt as [pt|]; try destruct (String.eqb pt "") eqn:Ep;
  destruct ot as [ot|]; try destruct (String.eqb ot "") eqn:Eo;
  destruct c as [c|]; try destruct (String.eqb c "") eqn:Ec;
  simpl; rewrite ?Es, ?Ep, ?Eo, ?Ec; simpl; rewrite ?Es, ?Ep, ?Eo, ?Ec; reflexivity.
Qed.

Lemma api_getAllProperties_eq filters db :
  Api.getAllProperties filters db = findAll filters db.
Proof.
  unfold Api.getAllProperties, Controller.getAllProperties; simpl.
  destruct filters as [f|]; [|reflexivity].
  unfold findAll. now rewrite build_decode_encode.
Qed.

(** The frontend [getAllProperties(filters)] (and so [filterProperties])
    gets from the server exactly what [propertyRepository.findAll(filters)]
    returns on the table, for all filters, without any precondition: the
    fields the encoder drops (empty strings) are the ones
    [buildWhereClause] ignores, and [Number(String(x))] gives back [x];
    with no filters the server answers the whole table, newest first. *)
Theorem api_getAllProperties_findAll (filters : option PropertyFilters.t)
  (db : list Property) :
  Api.getAllProperties filters db = findAll filters db
  /\ Api.getAllProperties None db = sort_desc db.
Proof.
  split; [apply api_getAllProperties_eq|].
  rewrite api_getAllProperties_eq. unfold findAll. simpl.
  now rewrite filter_true.
Qed.

(** ** Client update and delete against the server *)

Lemma find_map_replace i u db e :
  find (fun p => String.eqb (id p) i) db = Some e -> id u = i ->
  find (fun p => String.eqb (id p) i)
       (map (fun p => if String.eqb (id p) i then u else p) db) = Some u.
Proof.
  intros Hf Hu. induction db as [|x r IH]; simpl in *; [discriminate Hf|].
  destruct (String.eqb (id x) i) eqn:Ex; simpl.
  - rewrite Hu, String.eqb_refl. reflexivity.
  - rewrite Ex. apply IH. exact Hf.
Qed.

Lemma map_id_replace i u db :
  id u = i ->
  map id (map (fun p => if String.eqb (id p) i then u else p) db) = map id db.
Proof.
  intros Hu. induction db as [|x r IH]; simpl; [reflexivity|].
  destruct (String.eqb_spec (id x) i); simpl; congruence.
Qed.

Lemma api_getPropertyById_item route i j db :
  route i = ToItem j -> Api.getPropertyById route i db = option_map PProperty (findById j db).
Proof.
  intros Hr. unfold Api.getPropertyById, Controller.getPropertyById. rewrite Hr.
  destruct (findById j db); reflexivity.
Qed.

(** The client [updateProperty(id, input)] acts on the row whose id is the
    one the server reads from the URL, which is not [id] itself when [id]
    holds a ['?'], ['#'], ['/'] or a percent-escape. When the request
    reaches [/properties/:id] with id [j], it returns [null] and leaves the
    table unchanged if the server's validation rejects the body (checked
    before the id) or no row has id [j]; otherwise the row with id [j]
    becomes [merge existing validated t] and the client returns it. When
    the request reaches no [PUT] route it returns [null] and changes
    nothing. After a non-null answer, [getPropertyById(id)] returns that
    listing and the ids of the table are unchanged. This holds for every
    validator. *)
Theorem api_updateProperty_spec {Body : Type}
  (updatePropertySchema_safeParse : Body -> option PartialInput)
  (toBody : PartialInput -> Body) (route : string -> Route) (i : string)
  (input : PartialInput) (t : Z) (db : list Property) :
  (forall j, route i = ToItem j ->
     Api.updateProperty updatePropertySchema_safeParse toBody route i input t db =
       match updatePropertySchema_safeParse (toBody input), findById j db with
       | Some validated, Some existing =>
           (Some (merge existing validated t),
            map (fun p => if String.eqb (id p) j then merge existing validated t else p) db)
       | _, _ => (None, db)
       end)
  /\ ((forall j, route i <> ToItem j) ->
      Api.updateProperty updatePropertySchema_safeParse toBody route i input t db = (None, db))
  /\ (forall np db',
        Api.updateProperty updatePropertySchema_safeParse toBody route i input t db
          = (Some np, db') ->
        route i = ToItem (id np)
        /\ Api.getPropertyById route i db' = Some (PProperty np)
        /\ map id db' = map id db).
Proof.
  assert (E : forall j, route i = ToItem j ->
     Api.updateProperty updatePropertySchema_safeParse toBody route i input t db =
       match updatePropertySchema_safeParse (toBody input), findById j db with
       | Some validated, Some existing =>
           (Some (merge existing validated t),
            map (fun p => if String.eqb (id p) j then merge existing validated t else p) db)
       | _, _ => (None, db)
       end).
  { intros j Hr. unfold Api.updateProperty, Controller.updateProperty, repo_update.
    rewrite Hr.
    destruct (updatePropertySchema_safeParse (toBody input)); [|reflexivity].
    destruct (findById j db); reflexivity. }
  assert (N : (forall j, route i <> ToItem j) ->
      Api.updateProperty updatePropertySchema_safeParse toBody route i input t db = (None, db)).
  { intros Hr. unfold Api.updateProperty.
    destruct (route i) as [j|q|]; [destruct (Hr j eq_refl)|reflexivity|reflexivity]. }
  refine (conj E (conj N _)).
  intros np db' H.
  destruct (route i) as [j|q|] eqn:Hr;
    [|rewrite N in H by congruence; discriminate H|rewrite N in H by congruence; discriminate H].
  rewrite (E j eq_refl) in H.
  destruct (updatePropertySchema_safeParse (toBody input)) as [v|]; [|discriminate H].
  destruct (findById j db) as [e|] eqn:Hf; [|discriminate H].
  inversion H; subst np db'; clear H.
  assert (Hid : id (merge e v t) = j).
  { unfold findById in Hf. apply find_some in Hf as [_ Hj].
    apply String.eqb_eq in Hj. exact Hj. }
  rewrite Hid. split; [reflexivity|].
  rewrite (api_getPropertyById_item route i j _ Hr). unfold findById.
  split; [rewrite (find_map_replace j (merge e v t) db e Hf Hid); reflexivity|].
  now apply map_id_replace.
Qed.

Lemma find_none_existsb {A} (g : A -> bool) l :
  find g l = None -> existsb g l = false /\ filter (fun x => negb (g x)) l = l.
Proof.
  induction l as [|y r IH]; simpl; [auto|].
  destruct (g y); [discriminate|]. intros H. destruct (IH H) as [H1 H2].
  split; [exact H1|]. simpl. now rewrite H2.
Qed.

Lemma find_some_existsb {A} (g : A -> bool) l x : find g l = Some x -> existsb g l = true.
Proof.
  intros H. apply existsb_exists. apply find_some in H. exists x. exact H.
Qed.

(** The client [deleteProperty(id)] acts on the row whose id is the one
    the server reads from the URL. When the request reaches
    [/properties/:id] with id [j], it returns whether a row with id [j] was
    in the table, the table afterwards holds exactly the rows with another
    id (all of them, in order, when [j] was absent), and
    [getPropertyById(id)] then returns [undefined]; [getPropertyById(id)]
    returns the row with id [j], or [undefined] when there is none. When
    the request reaches no [DELETE] route it returns [false] and changes
    nothing. A [GET] that reaches the collection route returns the array
    of [getAllProperties] for the query string, not a listing. *)
Theorem api_deleteProperty_spec (route : string -> Route) (i : string) (db : list Property) :
  (forall j, route i = ToItem j ->
     Api.deleteProperty route i db =
       (existsb (fun p => String.eqb (id p) j) db,
        filter (fun p => negb (String.eqb (id p) j)) db)
     /\ Api.getPropertyById route i (snd (Api.deleteProperty route i db)) = None
     /\ Api.getPropertyById route i db = option_map PProperty (findById j db))
  /\ ((forall j, route i <> ToItem j) -> Api.deleteProperty route i db = (false, db))
  /\ (forall q, route i = ToCollection q ->
      Api.getPropertyById route i db = Some (PProperties (findAll (Some (decode q)) db))).
Proof.
  refine (conj _ (conj _ _)).
  - intros j Hr.
    assert (E : Api.deleteProperty route i db =
      (existsb (fun p => String.eqb (id p) j) db,
       filter (fun p => negb (String.eqb (id p) j)) db)).
    { unfold Api.deleteProperty, Controller.deleteProperty, repo_delete. rewrite Hr.
      destruct (find (fun p => String.eqb (id p) j) db) as [x|] eqn:Hf; simpl.
      - now rewrite (find_some_existsb _ _ _ Hf).
      - destruct (find_none_existsb _ _ Hf) as [H1 H2]. now rewrite H1, H2. }
    split; [exact E|]. split.
    + rewrite E, (api_getPropertyById_item route i j _ Hr). simpl. unfold findById.
      now rewrite (find_filter_none (fun p => String.eqb (id p) j)).
    + apply api_getPropertyById_item. exact Hr.
  - intros Hr. unfold Api.deleteProperty.
    destruct (route i) as [j|q|]; [destruct (Hr j eq_refl)|reflexivity|reflexivity].
  - intros q Hr. unfold Api.getPropertyById. rewrite Hr. reflexivity.
Qed.

(** ** The filter state of the home page *)

Lemma hasFilters_false_match f p : hasFilters f = false -> local_match f p = true.
Proof.
  destruct f as [s pt ot mn mx mb c]. unfold hasFilters; simpl.
  intros H. repeat rewrite orb_false_iff in H.
  destruct H as [[[[[[Hs Hpt] Hot] Hmn] Hmx] Hmb] Hc].
  unfold local_match, search_ok, propertyType_ok, operationType_ok, minPrice_ok,
    maxPrice_ok, minBedrooms_ok, city_ok; simpl.
  rewrite <- !truthy_eq_active in Hs, Hpt, Hot, Hc. rewrite Hs, Hpt, Hot, Hc.
  assert (G : forall o, active_num o = false -> gated o = None).
  { intros [[z|]|]; simpl; try discriminate; [|reflexivity].
    intros Hz. apply negb_false_iff, Z.eqb_eq in Hz. subst z. reflexivity. }
  rewrite (G _ Hmn), (G _ Hmx), (G _ Hmb). reflexivity.
Qed.

(** When the page shows no active filter ([hasFilters] is false: every
    field is unset, [''] or [0]), the local [filterProperties] returns the
    whole stored array, newest first. *)
Theorem hasFilters_false_local_all (f : PropertyFilters.t) (st : StorageItem)
  (H : hasFilters f = false) :
  fst (filterProperties f st) = sort_desc (getAllProperties st).
Proof.
  rewrite filterProperties_spec. simpl. f_equal.
  apply filter_all_true. intros p. now apply hasFilters_false_match.
Qed.

(** Clearing the "Precio max" input sets [maxPrice] to [0], not to
    [undefined]. The page then counts it as no active filter and the local
    filter ignores it, as for an unset maximum; but the client sends
    [maxPrice=0], so every listing the API returns has [price <= 0]. *)
Theorem cleared_maxPrice_input (f : PropertyFilters.t) (st : StorageItem)
  (db : list Property) :
  let f' := handleFilterChange KMaxPrice (numberInputValue "") f in
  hasFilters f' = hasFilters (with_prices f (PropertyFilters.minPrice f) None)
  /\ fst (filterProperties f' st)
     = fst (filterProperties (with_prices f (PropertyFilters.minPrice f) None) st)
  /\ (forall p, In p (Api.filterProperties f' db) -> price p <= 0).
Proof.
  cbv zeta. destruct f as [s pt ot mn mx mb c].
  split; [reflexivity|]. split; [reflexivity|].
  intros p Hp. unfold Api.filterProperties in Hp.
  rewrite api_getAllProperties_eq, In_findAll in Hp. destruct Hp as [_ Hp].
  unfold eval_where in Hp. simpl in Hp.
  repeat rewrite andb_true_iff in Hp.
  destruct Hp as [[[[[_ _] Hpr] _] _] _].
  destruct mn; simpl in Hpr; [apply andb_true_iff in Hpr as [_ Hpr]|];
    rewrite andb_true_r in Hpr || idtac; apply Z.leb_le in Hpr; exact Hpr.
Qed.

(** Typing exactly [all] in the search box unsets the search filter, as
    for the ['all'] option of the selects: the local filter, the API and
    the active-filter indicator then behave as for an empty search box. *)
Theorem search_all_is_empty (f : PropertyFilters.t) (st : StorageItem) (db : list Property) :
  fst (filterProperties (handleFilterChange KSearch "all" f) st)
  = fst (filterProperties (handleFilterChange KSearch "" f) st)
  /\ Api.filterProperties (handleFilterChange KSearch "all" f) db
     = Api.filterProperties (handleFilterChange KSearch "" f) db
  /\ hasFilters (handleFilterChange KSearch "all" f)
     = hasFilters (handleFilterChange KSearch "" f).
Proof.
  unfold Api.filterProperties. rewrite !api_getAllProperties_eq.
  destruct f; split; [reflexivity | split; reflexivity].
Qed.

(** ** Concrete runs *)

Definition free_listing : Property :=
  mkProperty "p0" "Terreno cedido" "Terreno municipal cedido sin coste"
    "terreno" "venta" 0 "Camino del huerto 3" "Alzira" 0 0 500 [] [] 500 500.

Lemma updateProperty_getPropertyById_witness :
  "p2" <> "p1" /\
  match updateProperty (fun _ => true) "p1" no_change 2000 (Saved [casa_valencia]) with
  | Ret (Some np) st' => getPropertyById "p2" st' = getPropertyById "p2" (Saved [casa_valencia])
  | _ => False
  end.
Proof.
  assert (Hj : "p2" <> "p1") by discriminate.
  split; [exact Hj|].
  pose proof (updateProperty_getPropertyById (fun _ => true) "p1" no_change 2000
                (Saved [casa_valencia])) as H.
  destruct (updateProperty (fun _ => true) "p1" no_change 2000 (Saved [casa_valencia]))
    as [[np|] st'|st'] eqn:E; [|vm_compute in E; discriminate E|vm_compute in E; discriminate E].
  destruct H as (old & _ & _ & _ & _ & Hother). exact (Hother "p2" Hj).
Defined.

Lemma deleteProperty_getPropertyById_witness :
  "p2" <> "p1" /\
  match deleteProperty (fun _ => true) "p1" (Saved [casa_valencia]) with
  | Ret _ st' => getPropertyById "p1" st' = None
                 /\ getPropertyById "p2" st' = getPropertyById "p2" (Saved [casa_valencia])
  | Throw _ => False
  end.
Proof.
  assert (Hj : "p2" <> "p1") by discriminate.
  split; [exact Hj|].
  pose proof (deleteProperty_getPropertyById (fun _ => true) "p1" (Saved [casa_valencia])) as H.
  destruct (deleteProperty (fun _ => true) "p1" (Saved [casa_valencia]))
    as [b st'|st'] eqn:E; [|vm_compute in E; discriminate E].
  destruct H as [H1 H2]. exact (conj H1 (H2 "p2" Hj)).
Defined.

Lemma api_updateProperty_spec_witness :
  segment_route "p0?x" = ToItem "p0"
  /\ Api.updateProperty Some (fun x => x) segment_route "p0?x" no_change 2000
       [casa_valencia; free_listing]
     = (Some (merge free_listing no_change 2000),
        [casa_valencia; merge free_listing no_change 2000]).
Proof.
  assert (Hr : segment_route "p0?x" = ToItem "p0") by reflexivity.
  split; [exact Hr|].
  rewrite (proj1 (api_updateProperty_spec Some (fun x => x) segment_route "p0?x" no_change
                    2000 [casa_valencia; free_listing]) "p0" Hr).
  reflexivity.
Defined.

Lemma api_deleteProperty_spec_witness :
  segment_route "p0?x" = ToItem "p0"
  /\ Api.deleteProperty segment_route "p0?x" [casa_valencia; free_listing]
     = (true, [casa_valencia]).
Proof.
  assert (Hr : segment_route "p0?x" = ToItem "p0") by reflexivity.
  split; [exact Hr|].
  rewrite (proj1 (proj1 (api_deleteProperty_spec segment_route "p0?x"
                           [casa_valencia; free_listing]) "p0" Hr)).
  reflexivity.
Defined.

Lemma hasFilters_false_local_all_witness :
  hasFilters (handleFilterChange KMaxPrice (numberInputValue "") PropertyFilters.empty) = false
  /\ fst (filterProperties
            (handleFilterChange KMaxPrice (numberInputValue "") PropertyFilters.empty)
            (Saved [casa_valencia; free_listing]))
     = sort_desc [casa_valencia; free_listing].
Proof.
  assert (H : hasFilters (handleFilterChange KMaxPrice (numberInputValue "")
                            PropertyFilters.empty) = false) by reflexivity.
  split; [exact H|].
  exact (hasFilters_false_local_all _ (Saved [casa_valencia; free_listing]) H).
Defined.

Lemma cleared_maxPrice_input_witness :
  In free_listing (Api.filterProperties
                     (handleFilterChange KMaxPrice (numberInputValue "") PropertyFilters.empty)
                     [casa_valencia; free_listing])
  /\ price free_listing <= 0.
Proof.
  assert (Hin : In free_listing (Api.filterProperties
                     (handleFilterChange KMaxPrice (numberInputValue "") PropertyFilters.empty)
                     [casa_valencia; free_listing])) by (vm_compute; auto).
  split; [exact Hin|].
  exact (proj2 (proj2 (cleared_maxPrice_input PropertyFilters.empty Missing
                         [casa_valencia; free_listing])) free_listing Hin).
Defined.
